(** * BuyTicketsModal: ticket pricing, purchase validation and approval gating

    A shallow embedding of the numeric and state logic of
    [src/views/LotteryV2/components/BuyTicketsModal/BuyTicketsModal.tsx],
    and the properties of it that the specification states.

    - The component computes with [bignumber.js] values.  A BigNumber is
      NaN, a signed infinity, or a finite decimal.  [times], [plus] and
      [minus] are exact; [div] rounds its quotient to [DECIMAL_PLACES]
      decimal places with the library's default rounding mode ROUND_HALF_UP.
      The sign of zero is not represented: none of the operations the
      component uses ([eq], [gt], [lte], [toString], [Math.floor] of
      [toNumber]) observes it.
    - The [useState] cells are a record; effects and handlers are functions
      from state to state.  What the hooks hand to one render (round data,
      balance, approval flags, ticket numbers) is fixed in a section.
    - Helpers that live in other files ([getFullDisplayBalance],
      [DECIMAL_PLACES]) are parameters.

    The file has three parts: the embedding, the vocabulary of the
    statements, and the lemmas and theorems. *)

From Stdlib Require Import ZArith QArith Qabs Qround Qminmax Lia Lqa Bool List.
From Stdlib Require Import Ascii String.
From Stdlib Require Import Decimal DecimalString DecimalPos DecimalZ.
Import ListNotations.

Local Open Scope Z_scope.

(** ** Finite decimals *)

Definition pow10 (k : nat) : Z := 10 ^ Z.of_nat k.

Record decimal : Type := mkDecimal { coeff : Z; scale : nat }.

(** The rational number a decimal stands for: [coeff / 10^scale]. *)
Definition toQ (d : decimal) : Q := Qmake (coeff d) (Z.to_pos (pow10 (scale d))).

(** Round-half-up (ties away from zero) of [num / den], for [den > 0]. *)
Definition roundHalfUp (num den : Z) : Z :=
  if 0 <=? num
  then (2 * num + den) / (2 * den)
  else - ((2 * (- num) + den) / (2 * den)).

(** ** BigNumber values and the operations the component calls *)

Inductive BigNumber : Type :=
| NaN
| Infinity (negative : bool)
| Finite (d : decimal).

Module BN.

Definition ofZ (z : Z) : BigNumber := Finite (mkDecimal z 0).

Definition isZero (d : decimal) : bool := coeff d =? 0.
Definition isNeg (d : decimal) : bool := coeff d <? 0.

Definition times (x y : BigNumber) : BigNumber :=
  match x, y with
  | NaN, _ | _, NaN => NaN
  | Infinity a, Infinity b => Infinity (xorb a b)
  | Infinity a, Finite d | Finite d, Infinity a =>
      if isZero d then NaN else Infinity (xorb a (isNeg d))
  | Finite a, Finite b =>
      Finite (mkDecimal (coeff a * coeff b) (scale a + scale b))
  end.

(** Both coefficients brought to the larger of the two scales. *)
Definition align (a b : decimal) : Z * Z * nat :=
  let s := Nat.max (scale a) (scale b) in
  (coeff a * pow10 (s - scale a), coeff b * pow10 (s - scale b), s).

Definition plus (x y : BigNumber) : BigNumber :=
  match x, y with
  | NaN, _ | _, NaN => NaN
  | Infinity a, Infinity b => if Bool.eqb a b then Infinity a else NaN
  | Infinity a, Finite _ | Finite _, Infinity a => Infinity a
  | Finite a, Finite b =>
      let '(ca, cb, s) := align a b in Finite (mkDecimal (ca + cb) s)
  end.

Definition negated (x : BigNumber) : BigNumber :=
  match x with
  | NaN => NaN
  | Infinity a => Infinity (negb a)
  | Finite d => Finite (mkDecimal (- coeff d) (scale d))
  end.

Definition minus (x y : BigNumber) : BigNumber := plus x (negated y).

(** [x.div(y)] under [DECIMAL_PLACES = dp]. *)
Definition div (dp : nat) (x y : BigNumber) : BigNumber :=
  match x, y with
  | NaN, _ | _, NaN => NaN
  | Infinity _, Infinity _ => NaN
  | Infinity a, Finite d => Infinity (xorb a (isNeg d))
  | Finite _, Infinity _ => ofZ 0
  | Finite a, Finite b =>
      if isZero b then (if isZero a then NaN else Infinity (isNeg a))
      else
        let num := coeff a * pow10 (scale b + dp) in
        let den := coeff b * pow10 (scale a) in
        let '(num, den) := if den <? 0 then (- num, - den) else (num, den) in
        Finite (mkDecimal (roundHalfUp num den) dp)
  end.

(** [comparedTo]: [None] when either side is NaN. *)
Definition compare (x y : BigNumber) : option comparison :=
  match x, y with
  | NaN, _ | _, NaN => None
  | Infinity a, Infinity b =>
      Some (if Bool.eqb a b then Eq else if a then Lt else Gt)
  | Infinity a, Finite _ => Some (if a then Lt else Gt)
  | Finite _, Infinity b => Some (if b then Gt else Lt)
  | Finite a, Finite b =>
      Some (Z.compare (coeff a * pow10 (scale b)) (coeff b * pow10 (scale a)))
  end.

Definition gt (x y : BigNumber) : bool :=
  match compare x y with Some Gt => true | _ => false end.
Definition eq (x y : BigNumber) : bool :=
  match compare x y with Some Eq => true | _ => false end.
Definition lte (x y : BigNumber) : bool :=
  match compare x y with Some Lt | Some Eq => true | _ => false end.

Definition isNaN (x : BigNumber) : bool :=
  match x with NaN => true | _ => false end.

End BN.

(** [BIG_ZERO] of [utils/bigNumber]: [new BigNumber(0)]. *)
Definition BIG_ZERO : BigNumber := BN.ofZ 0.

(** ** JavaScript numbers and strings

    The only [number] values the component handles are results of
    [parseInt] and [Math.floor]: integers, NaN and the infinities.  Integers
    are kept exactly, which is what JavaScript does within the safe-integer
    range; ticket counts are far inside it. *)

Inductive JSNumber : Type :=
| JNaN
| JInfinity (negative : bool)
| JInt (z : Z).

(** Truthiness of a number, as in [inputAsInt ? ... : ...]. *)
Definition truthy (n : JSNumber) : bool :=
  match n with
  | JNaN => false
  | JInfinity _ => true
  | JInt z => negb (z =? 0)
  end.

(** [a < b] on numbers: false as soon as one side is NaN. *)
Definition numberLt (a b : JSNumber) : bool :=
  match a, b with
  | JNaN, _ | _, JNaN => false
  | JInfinity x, JInfinity y => x && negb y
  | JInfinity x, JInt _ => x
  | JInt _, JInfinity y => negb y
  | JInt x, JInt y => x <? y
  end.

(** [a === b] on numbers: NaN differs from everything. *)
Definition numberStrictEq (a b : JSNumber) : bool :=
  match a, b with
  | JInfinity x, JInfinity y => Bool.eqb x y
  | JInt x, JInt y => x =? y
  | _, _ => false
  end.

Local Open Scope string_scope.

(** The decimal numeral of an integer. *)
Definition numeral (z : Z) : string := NilZero.string_of_int (Z.to_int z).


Definition isWhiteSpace (c : ascii) : bool :=
  let n := nat_of_ascii c in
  (Nat.eqb n 32 || (Nat.leb 9 n && Nat.leb n 13))%bool.

Definition digitValue (c : ascii) : option Z :=
  let n := nat_of_ascii c in
  if (Nat.leb 48 n && Nat.leb n 57)%bool then Some (Z.of_nat (n - 48)) else None.

Fixpoint skipWhiteSpace (s : string) : string :=
  match s with
  | String c r => if isWhiteSpace c then skipWhiteSpace r else s
  | EmptyString => s
  end.

(** Reads the longest run of decimal digits at the head of [s], continuing
    the value [acc]; returns the value, the number of digits read and the
    rest of the string. *)
Fixpoint scanDigits (s : string) (acc : Z) (count : nat) : Z * nat * string :=
  match s with
  | String c r =>
      match digitValue c with
      | Some v => scanDigits r (10 * acc + v) (S count)
      | None => (acc, count, s)
      end
  | EmptyString => (acc, count, s)
  end.

(** An optional sign character; [plusToo] says whether ["+"] is accepted. *)
Definition scanSign (plusToo : bool) (s : string) : bool * string :=
  match s with
  | String "-" r => (true, r)
  | String "+" r => if plusToo then (false, r) else (false, s)
  | _ => (false, s)
  end.

(** [parseInt(s, 10)]: leading white space (the ASCII white-space
    characters here), an optional sign, then the longest prefix of digits;
    NaN when there is no digit. *)
Definition parseInt10 (s : string) : JSNumber :=
  let '(neg, s1) := scanSign true (skipWhiteSpace s) in
  let '(v, n, _) := scanDigits s1 0 0 in
  match n with
  | O => JNaN
  | S _ => JInt (if neg then - v else v)
  end.

(** The decimal literals of BigNumber's constructor: an optional minus,
    digits with an optional point and fraction digits (or a point followed by
    digits), and an optional exponent [e], sign, digits; the whole string
    must match. *)
Definition parseDecimalLiteral (s : string) : option decimal :=
  let '(neg, s1) := scanSign false s in
  let '(ip, ni, s2) := scanDigits s1 0 0 in
  let '(c, nf, s3) :=
    match s2 with
    | String "." r => scanDigits r ip 0
    | _ => (ip, O, s2)
    end in
  let dotted := match s2 with String "." _ => true | _ => false end in
  if (Nat.eqb ni 0 && (negb dotted || Nat.eqb nf 0))%bool then None
  else
    let c := if neg then - c else c in
    match s3 with
    | EmptyString => Some (mkDecimal c nf)
    | String e r =>
        if (Ascii.eqb e "e" || Ascii.eqb e "E")%bool then
          let '(eneg, r1) := scanSign true r in
          let '(ev, ne, r2) := scanDigits r1 0 0 in
          match ne, r2 with
          | S _, EmptyString =>
              Some (if eneg then mkDecimal c (nf + Z.to_nat ev)
                    else mkDecimal (c * 10 ^ ev) nf)
          | _, _ => None
          end
        else None
    end.

Module BNString.

(** [new BigNumber(s)] for a string: a decimal literal, ["NaN"] or a signed
    ["Infinity"]; anything else is NaN.  (The constructor also accepts
    radix-prefixed and white-space padded spellings, which no setter of the
    component produces; they are not interpreted here.) *)
Definition ofString (s : string) : BigNumber :=
  match parseDecimalLiteral s with
  | Some d => Finite d
  | None =>
      if String.eqb s "Infinity" then Infinity false
      else if String.eqb s "-Infinity" then Infinity true
      else NaN
  end.

(** Trailing zeros of the fractional part removed. *)
Fixpoint normalize (c : Z) (s : nat) : decimal :=
  match s with
  | O => mkDecimal c 0
  | S s' => if (c mod 10 =? 0)%Z then normalize (c / 10) s' else mkDecimal c s
  end.

Fixpoint zeros (n : nat) : string :=
  match n with
  | O => EmptyString
  | S n' => String "0" (zeros n')
  end.

(** The digits [ds] of a coefficient with the point [s] places from the right. *)
Definition positional (ds : string) (s : nat) : string :=
  match s with
  | O => ds
  | S _ =>
      let len := String.length ds in
      if Nat.leb len s then "0." ++ zeros (s - len) ++ ds
      else substring 0 (len - s) ds ++ "." ++ substring (len - s) s ds
  end.

(** [x.toString()] in positional notation (the library switches to
    exponential notation only past [EXPONENTIAL_AT], beyond 1e21 and below
    1e-7 by default). *)
Definition toString (x : BigNumber) : string :=
  match x with
  | NaN => "NaN"
  | Infinity false => "Infinity"
  | Infinity true => "-Infinity"
  | Finite d =>
      let n := normalize (coeff d) (scale d) in
      (if (coeff n <? 0)%Z then "-" else EmptyString)
        ++ positional (numeral (Z.abs (coeff n))) (scale n)
  end.

(** [new BigNumber(n)] for a number. *)
Definition ofNumber (n : JSNumber) : BigNumber :=
  match n with
  | JNaN => NaN
  | JInfinity b => Infinity b
  | JInt z => BN.ofZ z
  end.

(** [Math.floor(x.toNumber())].  [toNumber] gives the double nearest to
    the decimal; the floor of the exact value is the floor of that double
    whenever the decimal has at most 15 significant digits, as have the
    hundredths of ticket counts the component floors. *)
Definition floorToNumber (x : BigNumber) : JSNumber :=
  match x with
  | NaN => JNaN
  | Infinity b => JInfinity b
  | Finite d => JInt (coeff d / pow10 (scale d))
  end.

End BNString.

(** ** The component *)

(** [FetchStatus] of [hooks/useTokenBalance]; the component only tests for
    [SUCCESS]. *)
Inductive FetchStatus : Type := NOT_FETCHED | SUCCESS | FAILED.

Definition isSuccess (f : FetchStatus) : bool :=
  match f with SUCCESS => true | _ => false end.

(** A ticket as handed to [buyTickets]. *)
Definition TicketNumber : Type := Z.

(** The [useState] cells the numeric logic reads and writes. *)
Record State : Type := mkState {
  ticketsToBuy : string;
  discountValue : string;
  totalCost : string;
  ticketCostBeforeDiscount : string;
  maxPossibleTicketPurchase : BigNumber;
  maxTicketPurchaseExceeded : bool;
  userNotEnoughCake : bool
}.

(** [useState] initial values. *)
Definition initialState : State :=
  mkState "0" EmptyString EmptyString EmptyString BIG_ZERO false false.

Definition setTicketsToBuy (v : string) (st : State) : State :=
  mkState v (discountValue st) (totalCost st) (ticketCostBeforeDiscount st)
    (maxPossibleTicketPurchase st) (maxTicketPurchaseExceeded st)
    (userNotEnoughCake st).

Definition setDiscountValue (v : string) (st : State) : State :=
  mkState (ticketsToBuy st) v (totalCost st) (ticketCostBeforeDiscount st)
    (maxPossibleTicketPurchase st) (maxTicketPurchaseExceeded st)
    (userNotEnoughCake st).

Definition setTotalCost (v : string) (st : State) : State :=
  mkState (ticketsToBuy st) (discountValue st) v (ticketCostBeforeDiscount st)
    (maxPossibleTicketPurchase st) (maxTicketPurchaseExceeded st)
    (userNotEnoughCake st).

Definition setTicketCostBeforeDiscount (v : string) (st : State) : State :=
  mkState (ticketsToBuy st) (discountValue st) (totalCost st) v
    (maxPossibleTicketPurchase st) (maxTicketPurchaseExceeded st)
    (userNotEnoughCake st).

Definition setMaxPossibleTicketPurchase (v : BigNumber) (st : State) : State :=
  mkState (ticketsToBuy st) (discountValue st) (totalCost st)
    (ticketCostBeforeDiscount st) v (maxTicketPurchaseExceeded st)
    (userNotEnoughCake st).

Definition setMaxTicketPurchaseExceeded (v : bool) (st : State) : State :=
  mkState (ticketsToBuy st) (discountValue st) (totalCost st)
    (ticketCostBeforeDiscount st) (maxPossibleTicketPurchase st) v
    (userNotEnoughCake st).

Definition setUserNotEnoughCake (v : bool) (st : State) : State :=
  mkState (ticketsToBuy st) (discountValue st) (totalCost st)
    (ticketCostBeforeDiscount st) (maxPossibleTicketPurchase st)
    (maxTicketPurchaseExceeded st) v.

(** What awaiting the body of a [try] block gives: a value, or a throw. *)
Inductive Outcome (A : Type) : Type :=
| Returns (a : A)
| Throws.
Arguments Returns {A} a.
Arguments Throws {A}.

(** [try { body } catch (error) { return fallback }]. *)
Definition tryCatch {A : Type} (body : Outcome A) (fallback : A) : A :=
  match body with
  | Returns a => a
  | Throws => fallback
  end.

Definition bindOutcome {A B : Type} (m : Outcome A) (k : A -> Outcome B) : Outcome B :=
  match m with
  | Returns a => k a
  | Throws => Throws
  end.

(** [ethersToBigNumber] of [utils/bigNumber]: the ethers integer read as a
    BigNumber. *)
Definition ethersToBigNumber (response : Z) : BigNumber := BN.ofZ response.

(** The two texts of [getErrorMessage], before translation; the second
    carries its [maxTickets] parameter. *)
Inductive ErrorMessage : Type :=
| InsufficientCakeBalance
| MaximumTicketsPerTransaction (maxTickets : string).

(** What [percentageDiscount] returns: the number [0], or the text
    [percentageAsBn.toNumber().toFixed(2)] of a BigNumber that is neither NaN
    nor zero (kept as that BigNumber). *)
Inductive PercentageDiscount : Type :=
| PercentZero
| PercentFixed2 (percentageAsBn : BigNumber).


(** One render of [BuyTicketsModal]: the values the hooks hand to the
    component body are fixed, the handlers and effects transform [State]. *)
Section Render.

(** [BigNumber.config]'s DECIMAL_PLACES (20 unless the application sets it). *)
Variable DECIMAL_PLACES : nat.

(** [getFullDisplayBalance] of [utils/formatBalance], with its two optional
    arguments [decimals] and [decimalsToAppear]. *)
Variable getFullDisplayBalance : BigNumber -> option Z -> option Z -> string.

(** [useLottery()]. *)
Variable maxNumberTicketsPerBuyOrClaim : BigNumber.
Variable priceTicketInCake : BigNumber.
Variable discountDivisor : BigNumber.

(** [useTokenBalance(getCakeAddress())]. *)
Variable userCake : BigNumber.
Variable fetchStatus : FetchStatus.

(** [useApproveConfirmTransaction(...)]. *)
Variable isApproved : bool.
Variable isConfirmed : bool.

(** [useTicketsReducer(...)]: what [getTicketsForPurchase()] returns. *)
Variable getTicketsForPurchase : list TicketNumber.

(** [new BigNumber(userCake.toJSON())]: the same value. *)
Definition memoisedUserCake : BigNumber := userCake.

Definition hasFetchedBalance : bool := isSuccess fetchStatus.

Definition limitNumberByMaxTicketsPerBuy (number : BigNumber) : BigNumber :=
  if BN.gt number maxNumberTicketsPerBuyOrClaim
  then maxNumberTicketsPerBuyOrClaim
  else number.

(** The first effect. *)
Definition getMaxPossiblePurchase (st : State) : State :=
  let maxBalancePurchase := BN.div DECIMAL_PLACES memoisedUserCake priceTicketInCake in
  let maxPurchase := limitNumberByMaxTicketsPerBuy maxBalancePurchase in
  let st :=
    if (hasFetchedBalance && BN.eq maxPurchase (BN.ofZ 0))%bool
    then setUserNotEnoughCake true st
    else setUserNotEnoughCake false st in
  setMaxPossibleTicketPurchase maxPurchase st.

Definition getCostAfterDiscount (numberOfTicketsToBuy : BigNumber) : BigNumber :=
  BN.div DECIMAL_PLACES
    (BN.times (BN.times priceTicketInCake numberOfTicketsToBuy)
       (BN.minus (BN.plus discountDivisor (BN.ofZ 1)) numberOfTicketsToBuy))
    discountDivisor.

Definition costBeforeDiscount (numberOfTicketsToBuy : BigNumber) : BigNumber :=
  BN.times priceTicketInCake numberOfTicketsToBuy.

Definition discountBeingApplied (numberOfTicketsToBuy : BigNumber) : BigNumber :=
  BN.minus (costBeforeDiscount numberOfTicketsToBuy)
    (getCostAfterDiscount numberOfTicketsToBuy).

(** [x.gt(0) ? getFullDisplayBalance(x, ...) : '0']. *)
Definition displayed (x : BigNumber) (decimals decimalsToAppear : option Z) : string :=
  if BN.gt x (BN.ofZ 0)
  then getFullDisplayBalance x decimals decimalsToAppear
  else "0".

(** The second effect. *)
Definition updateCostFigures (st : State) : State :=
  let numberOfTicketsToBuy := BNString.ofString (ticketsToBuy st) in
  let costAfterDiscount := getCostAfterDiscount numberOfTicketsToBuy in
  let costBefore := costBeforeDiscount numberOfTicketsToBuy in
  let discount := BN.minus costBefore costAfterDiscount in
  let st := setTicketCostBeforeDiscount (displayed costBefore None None) st in
  let st := setTotalCost (displayed costAfterDiscount None None) st in
  setDiscountValue (displayed discount (Some 18) (Some 5)) st.

Definition getNumTicketsByPercentage (st : State) (percentage : Z) : JSNumber :=
  let percentageOfMaxTickets :=
    if BN.gt (maxPossibleTicketPurchase st) (BN.ofZ 0)
    then BN.times (BN.div DECIMAL_PLACES (maxPossibleTicketPurchase st) (BN.ofZ 100))
           (BN.ofZ percentage)
    else BIG_ZERO in
  BNString.floorToNumber percentageOfMaxTickets.

(** The [disabled] property of a [NumTicketsToBuyButton] offering [count]. *)
Definition buttonDisabled (count : JSNumber) : bool :=
  (negb hasFetchedBalance || numberLt count (JInt 1))%bool.

Definition getCakeValueOfTickets (numberOfTickets : BigNumber) : BigNumber :=
  BN.times priceTicketInCake numberOfTickets.

Definition handleInputChange (input : string) (st : State) : State :=
  let inputAsInt := parseInt10 input in
  let inputAsBN := BNString.ofNumber inputAsInt in
  let limitedNumberTickets := limitNumberByMaxTicketsPerBuy inputAsBN in
  let cakeValueOfInput := getCakeValueOfTickets limitedNumberTickets in
  let st :=
    if BN.gt cakeValueOfInput userCake then setUserNotEnoughCake true st
    else if BN.eq limitedNumberTickets (maxPossibleTicketPurchase st)
         then setMaxTicketPurchaseExceeded true st
         else setMaxTicketPurchaseExceeded false (setUserNotEnoughCake false st) in
  setTicketsToBuy
    (if truthy inputAsInt then BNString.toString limitedNumberTickets else "0") st.


(** [onRequiresApproval]: [allowance] stands for awaiting
    [cakeContract.allowance(account, lotteryContract.address)]. *)
Definition onRequiresApproval (allowance : Outcome Z) : bool :=
  tryCatch
    (bindOutcome allowance (fun response =>
       let currentAllowance := ethersToBigNumber response in
       Returns (BN.gt currentAllowance (BN.ofZ 0))))
    false.

(** The "Cost" line: the cost before discount, formatted as it is. *)
Definition costInCake (st : State) : string :=
  getFullDisplayBalance
    (BN.times priceTicketInCake (BNString.ofString (ticketsToBuy st))) None None.

Definition disableBuying (st : State) : bool :=
  (negb isApproved
   || isConfirmed
   || userNotEnoughCake st
   || String.eqb (ticketsToBuy st) EmptyString
   || BN.lte (BNString.ofString (ticketsToBuy st)) (BN.ofZ 0)
   || negb (numberStrictEq (JInt (Z.of_nat (List.length getTicketsForPurchase)))
              (parseInt10 (ticketsToBuy st))))%bool.

(** [useLottery()]: the identifier of the current round. *)
Variable currentLotteryId : string.

Definition getErrorMessage (st : State) : ErrorMessage :=
  if userNotEnoughCake st then InsufficientCakeBalance
  else MaximumTicketsPerTransaction
         (BNString.toString (maxPossibleTicketPurchase st)).

(** The [isWarning] property of the input, which is also the condition
    under which the error message is rendered. *)
Definition isWarning (st : State) : bool :=
  (userNotEnoughCake st || maxTicketPurchaseExceeded st)%bool.

(** The error text below the input, when there is one. *)
Definition renderedError (st : State) : option ErrorMessage :=
  if isWarning st then Some (getErrorMessage st) else None.

Definition percentageDiscount (st : State) : PercentageDiscount :=
  let percentageAsBn :=
    BN.times
      (BN.div DECIMAL_PLACES (BNString.ofString (discountValue st))
         (BNString.ofString (ticketCostBeforeDiscount st)))
      (BN.ofZ 100) in
  if (BN.isNaN percentageAsBn || BN.eq percentageAsBn (BN.ofZ 0))%bool
  then PercentZero
  else PercentFixed2 percentageAsBn.

(** [discountValue && totalCost ? percentageDiscount() : 0], the figure
    before the percent sign of the "Bulk discount" line. *)
Definition bulkDiscountPercentage (st : State) : PercentageDiscount :=
  if (negb (String.eqb (discountValue st) EmptyString)
      && negb (String.eqb (totalCost st) EmptyString))%bool
  then percentageDiscount st
  else PercentZero.


End Render.

(** ** The approve/confirm flow and the component's transitions *)

Inductive TransactionFlowState : Type :=
| Idle | CheckingAllowance | NeedsApproval | Approving
| Approved | Confirming | Confirmed | Failed.

(** Modelled from the spec: the step of [useApproveConfirmTransaction]
    (hooks/useApproveConfirmTransaction, not part of this file) that leaves
    [CheckingAllowance]: to [Approved] when the allowance check reports that
    approval is already in place, to [NeedsApproval] otherwise. *)
Definition allowanceChecked (alreadyApproved : bool) : TransactionFlowState :=
  if alreadyApproved then Approved else NeedsApproval.






(** * Vocabulary of the statements *)

(** [represents x q]: [x] is finite and its value is the rational [q]. *)
Definition represents (x : BigNumber) (q : Q) : Prop :=
  match x with
  | Finite d => toQ d == q
  | _ => False
  end.

(** [10^k] as a rational. *)
Definition q10 (k : nat) : Q := inject_Z (pow10 k).

(** [q] has at most [dp] decimal places. *)
Definition onGrid (dp : nat) (q : Q) : Prop :=
  exists k : Z, (q == inject_Z k / q10 dp)%Q.

(** [q] is a multiple of [10^-dp] nearest to [exact]. *)
Definition roundsTo (dp : nat) (exact q : Q) : Prop :=
  exists k : Z,
    (q == inject_Z k / q10 dp)%Q /\
    (- (1 # 2) <= inject_Z k - exact * q10 dp <= 1 # 2)%Q.

(** The value of a digit sequence read left to right, continuing [acc]. *)
Fixpoint horner (d : uint) (acc : Z) : Z :=
  match d with
  | Nil => acc
  | D0 d => horner d (10 * acc + 0)
  | D1 d => horner d (10 * acc + 1)
  | D2 d => horner d (10 * acc + 2)
  | D3 d => horner d (10 * acc + 3)
  | D4 d => horner d (10 * acc + 4)
  | D5 d => horner d (10 * acc + 5)
  | D6 d => horner d (10 * acc + 6)
  | D7 d => horner d (10 * acc + 7)
  | D8 d => horner d (10 * acc + 8)
  | D9 d => horner d (10 * acc + 9)
  end.

(** A non-empty digit sequence prints as a string that starts with a digit. *)
Definition startsWithDigit (s : string) : bool :=
  match s with
  | String c _ => match digitValue c with Some _ => true | None => false end
  | EmptyString => false
  end.

(** The discount formula as the specification writes it, over the
    rationals: [price * n * (discountDivisor + 1 - n) / discountDivisor]. *)
Definition exactCostAfterDiscount (price divisor n : Q) : Q :=
  price * n * (divisor + 1 - n) / divisor.

(** The amount a displayed figure stands for: the raw amount when it is
    greater than zero, zero otherwise (the ['0'] branch of [displayed]). *)
Definition shownAmount (x : BigNumber) : BigNumber :=
  if BN.gt x (BN.ofZ 0) then x else BN.ofZ 0.

(** After leading white space and an optional sign, the input starts with a
    decimal digit. *)
Definition hasLeadingInteger (s : string) : bool :=
  startsWithDigit (snd (scanSign true (skipWhiteSpace s))).





(** The integer whose numeral the handler stores, for an integer cap [c]. *)
Definition storedQuantity (c : Z) (inputAsInt : JSNumber) : Z :=
  match inputAsInt with
  | JInt raw => if (raw =? 0)%Z then 0%Z else Z.min raw c
  | _ => 0%Z
  end.


(** NaN, or a finite value equal to zero. *)
Definition nanOrZero (x : BigNumber) : Prop := x = NaN \/ represents x 0.


(** * Properties of the arithmetic *)

Example parseInt10_examples :
  parseInt10 "42" = JInt 42 /\ parseInt10 "  -7px" = JInt (-7) /\
  parseInt10 EmptyString = JNaN /\ parseInt10 "abc" = JNaN /\ parseInt10 ".5" = JNaN /\
  parseInt10 "1.5" = JInt 1 /\ parseInt10 "+12abc" = JInt 12.
Proof. repeat split; reflexivity. Qed.

Example ofString_examples :
  BNString.ofString "42" = BN.ofZ 42 /\
  BNString.ofString "-2.50" = Finite (mkDecimal (-250) 2) /\
  BNString.ofString ".5" = Finite (mkDecimal 5 1) /\
  BNString.ofString "5." = Finite (mkDecimal 5 0) /\
  BNString.ofString "12e3" = Finite (mkDecimal 12000 0) /\
  BNString.ofString "12e-3" = Finite (mkDecimal 12 3) /\
  BNString.ofString EmptyString = NaN /\ BNString.ofString "1e" = NaN /\
  BNString.ofString "12abc" = NaN /\ BNString.ofString "." = NaN.
Proof. repeat split; reflexivity. Qed.

Example div_examples :
  BN.div 20 (BN.ofZ 1) (BN.ofZ 3) = Finite (mkDecimal 33333333333333333333 20)
  /\ BN.div 20 (BN.ofZ 2) (BN.ofZ 3) = Finite (mkDecimal 66666666666666666667 20)
  /\ BN.div 20 (BN.ofZ (-2)) (BN.ofZ 3) = Finite (mkDecimal (-66666666666666666667) 20)
  /\ BN.div 2 (BN.ofZ 1) (BN.ofZ 8) = Finite (mkDecimal 13 2)
  /\ BN.div 2 (BN.ofZ 1) (BN.ofZ (-8)) = Finite (mkDecimal (-13) 2)
  /\ BN.div 20 (BN.ofZ 1) (BN.ofZ 0) = Infinity false
  /\ BN.div 20 (BN.ofZ 0) (BN.ofZ 0) = NaN.
Proof. repeat split; vm_compute; reflexivity. Qed.

Example toString_examples :
  BNString.toString (BN.ofZ 100) = "100" /\
  BNString.toString (BN.ofZ (-3)) = "-3" /\
  BNString.toString (BN.ofZ 0) = "0" /\
  BNString.toString (Finite (mkDecimal 250 2)) = "2.5" /\
  BNString.toString (Finite (mkDecimal (-5) 3)) = "-0.005" /\
  BNString.toString (Finite (mkDecimal 12300 2)) = "123".
Proof. repeat split; reflexivity. Qed.

Local Open Scope Z_scope.

Lemma pow10_pos (k : nat) : 0 < pow10 k.
Proof. unfold pow10. apply Z.pow_pos_nonneg; lia. Qed.

Lemma pow10_add (a b : nat) : pow10 (a + b) = pow10 a * pow10 b.
Proof. unfold pow10. rewrite Nat2Z.inj_add, Z.pow_add_r; lia. Qed.

Lemma pow10_0 : pow10 0 = 1.
Proof. reflexivity. Qed.

Lemma q10_pos (k : nat) : (0 < q10 k)%Q.
Proof.
  unfold q10. change 0%Q with (inject_Z 0). rewrite <- Zlt_Qlt. apply pow10_pos.
Qed.

Lemma q10_nonzero (k : nat) : ~ (q10 k == 0)%Q.
Proof. pose proof (q10_pos k). lra. Qed.

Lemma q10_add (a b : nat) : (q10 (a + b) == q10 a * q10 b)%Q.
Proof. unfold q10. rewrite pow10_add, inject_Z_mult. reflexivity. Qed.

Lemma toQ_alt (d : decimal) : (toQ d == inject_Z (coeff d) / q10 (scale d))%Q.
Proof.
  unfold toQ, q10. destruct d as [c s]; simpl.
  pose proof (pow10_pos s) as Hp.
  rewrite (Qmake_Qdiv c (Z.to_pos (pow10 s))).
  rewrite Z2Pos.id by assumption. reflexivity.
Qed.

Lemma toQ_mk (c : Z) (s : nat) : (toQ (mkDecimal c s) == inject_Z c / q10 s)%Q.
Proof. apply toQ_alt. Qed.

Lemma toQ_compare (a b : decimal) :
  (toQ a ?= toQ b)%Q = (coeff a * pow10 (scale b) ?= coeff b * pow10 (scale a)).
Proof.
  unfold Qcompare, toQ; simpl.
  rewrite !Z2Pos.id by apply pow10_pos. reflexivity.
Qed.

Lemma represents_ofZ (z : Z) : represents (BN.ofZ z) (inject_Z z).
Proof.
  simpl. rewrite toQ_mk. unfold q10. rewrite pow10_0. field.
Qed.

Lemma represents_times (x y : BigNumber) (qx qy : Q) :
  represents x qx -> represents y qy -> represents (BN.times x y) (qx * qy).
Proof.
  destruct x as [| |a], y as [| |b]; simpl; try tauto.
  intros Hx Hy. rewrite <- Hx, <- Hy, !toQ_alt. simpl.
  rewrite inject_Z_mult, q10_add.
  field. split; apply q10_nonzero.
Qed.

Lemma pow10_align (s a : nat) : (a <= s)%nat -> pow10 s = pow10 (s - a) * pow10 a.
Proof. intro H. rewrite <- pow10_add. f_equal. lia. Qed.

Lemma represents_plus (x y : BigNumber) (qx qy : Q) :
  represents x qx -> represents y qy -> represents (BN.plus x y) (qx + qy).
Proof.
  destruct x as [| |a], y as [| |b]; simpl; try tauto.
  intros Hx Hy. rewrite <- Hx, <- Hy, !toQ_alt. simpl.
  set (s := Nat.max (scale a) (scale b)).
  assert (Ha : (q10 s == q10 (s - scale a) * q10 (scale a))%Q).
  { rewrite <- q10_add. replace (s - scale a + scale a)%nat with s by lia. reflexivity. }
  assert (Hb : (q10 s == q10 (s - scale b) * q10 (scale b))%Q).
  { rewrite <- q10_add. replace (s - scale b + scale b)%nat with s by lia. reflexivity. }
  rewrite inject_Z_plus, !inject_Z_mult. fold (q10 (s - scale a)) (q10 (s - scale b)).
  pose proof (q10_nonzero (s - scale a)). pose proof (q10_nonzero (s - scale b)).
  pose proof (q10_nonzero (scale a)). pose proof (q10_nonzero (scale b)).
  pose proof (q10_nonzero s).
  setoid_replace (inject_Z (coeff a) / q10 (scale a))%Q
    with (inject_Z (coeff a) * q10 (s - scale a) / q10 s)%Q
    by (rewrite Ha; field; auto).
  setoid_replace (inject_Z (coeff b) / q10 (scale b))%Q
    with (inject_Z (coeff b) * q10 (s - scale b) / q10 s)%Q
    by (rewrite Hb; field; auto).
  field. assumption.
Qed.

Lemma represents_negated (x : BigNumber) (qx : Q) :
  represents x qx -> represents (BN.negated x) (- qx).
Proof.
  destruct x as [| |a]; simpl; try tauto.
  intros Hx. rewrite <- Hx, !toQ_alt. simpl. rewrite inject_Z_opp.
  field. apply q10_nonzero.
Qed.

Lemma represents_minus (x y : BigNumber) (qx qy : Q) :
  represents x qx -> represents y qy -> represents (BN.minus x y) (qx - qy).
Proof.
  intros Hx Hy. unfold BN.minus, Qminus.
  apply represents_plus; [assumption | apply represents_negated; assumption].
Qed.

Lemma represents_compare (x y : BigNumber) (qx qy : Q) :
  represents x qx -> represents y qy ->
  BN.compare x y = Some (qx ?= qy)%Q.
Proof.
  destruct x as [| |a], y as [| |b]; simpl; try tauto.
  intros Hx Hy. rewrite <- toQ_compare. f_equal.
  apply Qcompare_comp; assumption.
Qed.

Lemma represents_gt (x y : BigNumber) (qx qy : Q) :
  represents x qx -> represents y qy ->
  (BN.gt x y = true <-> (qy < qx)%Q).
Proof.
  intros Hx Hy. unfold BN.gt. rewrite (represents_compare x y qx qy Hx Hy).
  rewrite Qgt_alt. destruct (qx ?= qy)%Q; split; congruence.
Qed.


Lemma represents_eq (x y : BigNumber) (qx qy : Q) :
  represents x qx -> represents y qy ->
  (BN.eq x y = true <-> (qx == qy)%Q).
Proof.
  intros Hx Hy. unfold BN.eq. rewrite (represents_compare x y qx qy Hx Hy).
  rewrite Qeq_alt. destruct (qx ?= qy)%Q; split; congruence.
Qed.


Lemma represents_ext (x : BigNumber) (q q' : Q) :
  (q == q')%Q -> represents x q -> represents x q'.
Proof.
  destruct x; simpl; try tauto. intros E H. rewrite H. exact E.
Qed.

(** ** Division: the quotient rounded to the grid of [dp] decimal places *)

Lemma roundHalfUp_spec (num den : Z) :
  0 < den ->
  - den <= 2 * (roundHalfUp num den * den - num) <= den.
Proof.
  intro Hd. unfold roundHalfUp.
  destruct (0 <=? num) eqn:E.
  - pose proof (Z.div_mod (2 * num + den) (2 * den) ltac:(lia)) as H.
    pose proof (Z.mod_pos_bound (2 * num + den) (2 * den) ltac:(lia)) as B.
    nia.
  - pose proof (Z.div_mod (2 * (- num) + den) (2 * den) ltac:(lia)) as H.
    pose proof (Z.mod_pos_bound (2 * (- num) + den) (2 * den) ltac:(lia)) as B.
    nia.
Qed.

Lemma represents_nonzero (b : decimal) (qy : Q) :
  (toQ b == qy)%Q -> ~ (qy == 0)%Q -> coeff b <> 0.
Proof.
  intros H Hn Hc. apply Hn. rewrite <- H, toQ_alt, Hc.
  field. apply q10_nonzero.
Qed.

Lemma roundsTo_core (r N D : Z) (w : Q) :
  0 < D ->
  - D <= 2 * (r * D - N) <= D ->
  (w * inject_Z D == inject_Z N)%Q ->
  (- (1 # 2) <= inject_Z r - w <= 1 # 2)%Q.
Proof.
  intros HD [Hlo Hhi] Hw.
  assert (HDq : (0 < inject_Z D)%Q).
  { change 0%Q with (inject_Z 0). rewrite <- Zlt_Qlt. exact HD. }
  assert (Hlo' : 2 * N <= 2 * (r * D) + D) by lia.
  assert (Hhi' : 2 * (r * D) <= 2 * N + D) by lia.
  rewrite Zle_Qle in Hlo', Hhi'.
  rewrite !inject_Z_plus, !inject_Z_mult in Hlo', Hhi'.
  change (inject_Z 2) with 2%Q in Hlo', Hhi'.
  rewrite <- Hw in Hlo', Hhi'.
  set (d := inject_Z D) in *. set (x := inject_Z r) in *.
  split; nra.
Qed.

Lemma div_represents (dp : nat) (x y : BigNumber) (qx qy : Q) :
  represents x qx -> represents y qy -> ~ (qy == 0)%Q ->
  exists q, represents (BN.div dp x y) q /\ roundsTo dp (qx / qy) q.
Proof.
  destruct x as [| |a], y as [| |b]; simpl; try tauto.
  intros Hx Hy Hnz.
  pose proof (represents_nonzero b qy Hy Hnz) as Hb.
  unfold BN.isZero. destruct (coeff b =? 0) eqn:Eb; [apply Z.eqb_eq in Eb; contradiction|].
  set (N0 := coeff a * pow10 (scale b + dp)).
  set (D0 := coeff b * pow10 (scale a)).
  assert (HD0 : D0 <> 0).
  { unfold D0. pose proof (pow10_pos (scale a)). nia. }
  assert (Hw : (qx / qy * q10 dp * inject_Z D0 == inject_Z N0)%Q).
  { rewrite <- Hx, <- Hy, !toQ_alt. unfold N0, D0.
    rewrite !inject_Z_mult. fold (q10 (scale a)) (q10 (scale b + dp)).
    rewrite q10_add.
    assert (~ (inject_Z (coeff b) == 0)%Q).
    { change 0%Q with (inject_Z 0). rewrite inject_Z_injective. exact Hb. }
    field. repeat split; auto using q10_nonzero. }
  destruct (D0 <? 0) eqn:Es.
  - apply Z.ltb_lt in Es.
    exists (inject_Z (roundHalfUp (- N0) (- D0)) / q10 dp)%Q. split.
    + simpl. apply toQ_mk.
    + exists (roundHalfUp (- N0) (- D0)). split; [reflexivity|].
      apply (roundsTo_core _ (- N0) (- D0)); [lia | apply roundHalfUp_spec; lia |].
      rewrite !inject_Z_opp. rewrite <- Hw. ring.
  - apply Z.ltb_ge in Es.
    exists (inject_Z (roundHalfUp N0 D0) / q10 dp)%Q. split.
    + simpl. apply toQ_mk.
    + exists (roundHalfUp N0 D0). split; [reflexivity|].
      apply (roundsTo_core _ N0 D0); [lia | apply roundHalfUp_spec; lia | exact Hw].
Qed.

(** The rounding error is at most half a unit in the last place. *)
Lemma roundsTo_error (dp : nat) (exact q : Q) :
  roundsTo dp exact q -> (Qabs (q - exact) <= (1 # 2) / q10 dp)%Q.
Proof.
  intros [k [Hq [Hlo Hhi]]].
  pose proof (q10_pos dp) as Hp.
  apply Qabs_Qle_condition.
  assert (E : (q - exact == (inject_Z k - exact * q10 dp) / q10 dp)%Q).
  { rewrite Hq. field. lra. }
  rewrite E.
  split.
  - apply Qle_shift_div_l; [assumption|].
    setoid_replace (- ((1 # 2) / q10 dp) * q10 dp)%Q with (- (1 # 2))%Q
      by (field; lra).
    assumption.
  - apply Qle_shift_div_r; [assumption|].
    setoid_replace ((1 # 2) / q10 dp * q10 dp)%Q with (1 # 2)%Q by (field; lra).
    assumption.
Qed.

Lemma roundsTo_onGrid (dp : nat) (exact q : Q) : roundsTo dp exact q -> onGrid dp q.
Proof. intros [k [Hq _]]. exists k. exact Hq. Qed.

Lemma inject_Z_half_gap (k j : Z) :
  (inject_Z k - inject_Z j <= 1 # 2)%Q -> k <= j.
Proof.
  intro H.
  assert (Hlt : (inject_Z k < inject_Z (j + 1))%Q).
  { rewrite inject_Z_plus. change (inject_Z 1) with 1%Q. lra. }
  rewrite <- Zlt_Qlt in Hlt. lia.
Qed.

(** A quotient that is already on the grid is returned exactly. *)
Lemma roundsTo_exact (dp : nat) (exact q : Q) :
  roundsTo dp exact q -> onGrid dp exact -> (q == exact)%Q.
Proof.
  intros [k [Hq [Hlo Hhi]]] [j Hj].
  pose proof (q10_pos dp) as Hp.
  assert (Ej : (exact * q10 dp == inject_Z j)%Q) by (rewrite Hj; field; lra).
  rewrite Ej in Hlo, Hhi.
  assert (k = j).
  { apply Z.le_antisymm; apply inject_Z_half_gap; lra. }
  subst k. rewrite Hq, Hj. reflexivity.
Qed.

(** Rounding never crosses a grid point above the exact value. *)
Lemma roundsTo_le_grid (dp : nat) (exact q bound : Q) :
  roundsTo dp exact q -> onGrid dp bound -> (exact <= bound)%Q -> (q <= bound)%Q.
Proof.
  intros [k [Hq [Hlo Hhi]]] [j Hj] Hle.
  pose proof (q10_pos dp) as Hp.
  assert (Ej : (bound * q10 dp == inject_Z j)%Q) by (rewrite Hj; field; lra).
  assert (Hs : (exact * q10 dp <= inject_Z j)%Q).
  { rewrite <- Ej. apply Qmult_le_compat_r; lra. }
  assert (k <= j) by (apply inject_Z_half_gap; lra).
  rewrite Hq, Hj. apply Qmult_le_compat_r.
  - rewrite <- Zle_Qle. assumption.
  - apply Qlt_le_weak, Qinv_lt_0_compat. assumption.
Qed.

(** Rounding never crosses a grid point below the exact value. *)
Lemma roundsTo_ge_grid (dp : nat) (exact q bound : Q) :
  roundsTo dp exact q -> onGrid dp bound -> (bound <= exact)%Q -> (bound <= q)%Q.
Proof.
  intros [k [Hq [Hlo Hhi]]] [j Hj] Hle.
  pose proof (q10_pos dp) as Hp.
  assert (Ej : (bound * q10 dp == inject_Z j)%Q) by (rewrite Hj; field; lra).
  assert (Hs : (inject_Z j <= exact * q10 dp)%Q).
  { rewrite <- Ej. apply Qmult_le_compat_r; lra. }
  assert (j <= k) by (apply inject_Z_half_gap; lra).
  rewrite Hq, Hj. apply Qmult_le_compat_r.
  - rewrite <- Zle_Qle. assumption.
  - apply Qlt_le_weak, Qinv_lt_0_compat. assumption.
Qed.

Lemma onGrid_inject_Z (dp : nat) (z : Z) : onGrid dp (inject_Z z).
Proof.
  exists (z * pow10 dp). rewrite inject_Z_mult. fold (q10 dp).
  field. apply q10_nonzero.
Qed.

(** ** Numerals: printing an integer and reading it back *)

Local Open Scope string_scope.

Lemma scanDigits_string_of_uint (d : uint) (acc : Z) (n : nat) :
  scanDigits (NilEmpty.string_of_uint d) acc n
  = (horner d acc, (n + nb_digits d)%nat, EmptyString).
Proof.
  revert acc n.
  induction d; intros acc n; cbn [NilEmpty.string_of_uint scanDigits horner nb_digits];
    try (rewrite Nat.add_0_r; reflexivity);
    change (digitValue _) with (Some 0%Z) || change (digitValue _) with (Some 1%Z)
    || change (digitValue _) with (Some 2%Z) || change (digitValue _) with (Some 3%Z)
    || change (digitValue _) with (Some 4%Z) || change (digitValue _) with (Some 5%Z)
    || change (digitValue _) with (Some 6%Z) || change (digitValue _) with (Some 7%Z)
    || change (digitValue _) with (Some 8%Z) || change (digitValue _) with (Some 9%Z);
    cbv iota beta; rewrite IHd, Nat.add_succ_r; reflexivity.
Qed.

Lemma of_uint_acc_horner (d : uint) (acc : positive) :
  Z.pos (Pos.of_uint_acc d acc) = horner d (Z.pos acc).
Proof.
  revert acc.
  induction d; intro acc; cbn [Pos.of_uint_acc horner]; try reflexivity;
    rewrite IHd; f_equal; lia.
Qed.

Lemma horner_of_uint (d : uint) : horner d 0 = Z.of_N (Pos.of_uint d).
Proof.
  induction d; cbn [Pos.of_uint horner]; try reflexivity;
    try (rewrite <- IHd; reflexivity);
    cbn [Z.of_N]; rewrite of_uint_acc_horner; reflexivity.
Qed.

Lemma horner_to_uint (p : positive) : horner (Pos.to_uint p) 0 = Z.pos p.
Proof.
  rewrite horner_of_uint, DecimalPos.Unsigned.of_to. reflexivity.
Qed.

Lemma string_of_uint_startsWithDigit (d : uint) :
  d <> Nil -> startsWithDigit (NilEmpty.string_of_uint d) = true.
Proof. destruct d; intro H; [contradiction | reflexivity ..]. Qed.

Lemma startsWithDigit_skipWhiteSpace (s : string) :
  startsWithDigit s = true -> skipWhiteSpace s = s.
Proof.
  destruct s as [|c r]; [discriminate|]. cbn [startsWithDigit skipWhiteSpace].
  unfold digitValue, isWhiteSpace.
  destruct (Nat.leb 48 (nat_of_ascii c)) eqn:E1; [|discriminate].
  apply Nat.leb_le in E1.
  replace (Nat.eqb (nat_of_ascii c) 32) with false
    by (symmetry; apply Nat.eqb_neq; lia).
  replace (Nat.leb (nat_of_ascii c) 13) with false
    by (symmetry; apply Nat.leb_gt; lia).
  rewrite Bool.andb_false_r. reflexivity.
Qed.

Lemma startsWithDigit_scanSign (plusToo : bool) (s : string) :
  startsWithDigit s = true -> scanSign plusToo s = (false, s).
Proof.
  destruct s as [|c r]; [discriminate|]. cbn [startsWithDigit].
  destruct (digitValue c) eqn:E; [|discriminate]. intros _.
  unfold scanSign.
  destruct (Ascii.eqb c "-") eqn:Em.
  { apply Ascii.eqb_eq in Em. subst c. discriminate E. }
  destruct (Ascii.eqb c "+") eqn:Ep.
  { apply Ascii.eqb_eq in Ep. subst c. discriminate E. }
  destruct c as [[|] [|] [|] [|] [|] [|] [|] [|]]; try reflexivity;
    discriminate.
Qed.

Lemma to_uint_digits (p : positive) :
  NilZero.string_of_uint (Pos.to_uint p) = NilEmpty.string_of_uint (Pos.to_uint p)
  /\ startsWithDigit (NilEmpty.string_of_uint (Pos.to_uint p)) = true
  /\ (0 < nb_digits (Pos.to_uint p))%nat.
Proof.
  pose proof (DecimalPos.Unsigned.to_uint_nonnil p) as Hn.
  destruct (Pos.to_uint p) eqn:E; try contradiction;
    repeat split; cbn; lia.
Qed.

Lemma numeral_pos (p : positive) :
  numeral (Z.pos p) = NilEmpty.string_of_uint (Pos.to_uint p).
Proof. unfold numeral. cbn. apply to_uint_digits. Qed.

Lemma numeral_neg (p : positive) :
  numeral (Z.neg p) = String "-" (NilEmpty.string_of_uint (Pos.to_uint p)).
Proof. unfold numeral. cbn. f_equal. apply to_uint_digits. Qed.

Lemma numeral_nonempty (z : Z) : String.eqb (numeral z) EmptyString = false.
Proof.
  destruct z as [|p|p].
  - reflexivity.
  - rewrite numeral_pos.
    destruct (to_uint_digits p) as [_ [H _]].
    destruct (NilEmpty.string_of_uint (Pos.to_uint p)); [discriminate | reflexivity].
  - rewrite numeral_neg. reflexivity.
Qed.

(** [parseInt] reads a numeral back. *)
Lemma parseInt10_numeral (z : Z) : parseInt10 (numeral z) = JInt z.
Proof.
  destruct z as [|p|p].
  - reflexivity.
  - rewrite numeral_pos. destruct (to_uint_digits p) as [_ [Hd Hn]].
    unfold parseInt10.
    rewrite (startsWithDigit_skipWhiteSpace _ Hd), (startsWithDigit_scanSign _ _ Hd).
    rewrite scanDigits_string_of_uint, horner_to_uint.
    destruct (nb_digits (Pos.to_uint p)); [lia | reflexivity].
  - rewrite numeral_neg. destruct (to_uint_digits p) as [_ [Hd Hn]].
    unfold parseInt10.
    change (skipWhiteSpace (String "-" ?s)) with (String "-" s).
    cbn [scanSign].
    rewrite scanDigits_string_of_uint, horner_to_uint.
    destruct (nb_digits (Pos.to_uint p)); [lia | reflexivity].
Qed.

(** The BigNumber constructor reads a numeral as that integer. *)
Lemma ofString_numeral (z : Z) : BNString.ofString (numeral z) = BN.ofZ z.
Proof.
  destruct z as [|p|p].
  - reflexivity.
  - rewrite numeral_pos. destruct (to_uint_digits p) as [_ [Hd Hn]].
    unfold BNString.ofString, parseDecimalLiteral.
    rewrite (startsWithDigit_scanSign _ _ Hd).
    rewrite scanDigits_string_of_uint, horner_to_uint.
    destruct (nb_digits (Pos.to_uint p)); [lia | reflexivity].
  - rewrite numeral_neg. destruct (to_uint_digits p) as [_ [Hd Hn]].
    unfold BNString.ofString, parseDecimalLiteral.
    cbn [scanSign].
    rewrite scanDigits_string_of_uint, horner_to_uint.
    destruct (nb_digits (Pos.to_uint p)); [lia | reflexivity].
Qed.

(** An integer BigNumber prints as its numeral. *)
Lemma toString_ofZ (z : Z) : BNString.toString (BN.ofZ z) = numeral z.
Proof.
  unfold BNString.toString, BN.ofZ. cbn [coeff scale BNString.normalize BNString.positional].
  destruct z as [|p|p]; reflexivity.
Qed.

(** * The pricing engine *)

Local Open Scope Q_scope.

Lemma getCostAfterDiscount_represents (dp : nat) (price divisor n : BigNumber)
    (qp qd qn : Q) :
  represents price qp -> represents divisor qd -> represents n qn ->
  ~ qd == 0 ->
  exists qa,
    represents (getCostAfterDiscount dp price divisor n) qa
    /\ roundsTo dp (exactCostAfterDiscount qp qd qn) qa.
Proof.
  intros Hp Hd Hn Hnz. unfold getCostAfterDiscount, exactCostAfterDiscount.
  apply div_represents; [| assumption | assumption].
  apply represents_times; [apply represents_times; assumption|].
  apply represents_minus; [| assumption].
  apply represents_plus; [assumption | apply (represents_ofZ 1)].
Qed.

(** C1 (as amended).  For finite [priceTicketInCake], [numberOfTicketsToBuy]
    and a finite non-zero [discountDivisor]: the cost before discount is
    exactly [price * n]; the cost after discount is the quotient
    [price * n * (divisor + 1 - n) / divisor] rounded to [DECIMAL_PLACES]
    decimal places, so it is within half a unit of the last place of the
    formula and equal to it whenever the formula's value has at most
    [DECIMAL_PLACES] decimals; the discount is exactly the difference of the
    two computed costs. *)
Theorem pricing_formulas (dp : nat) (price divisor n : BigNumber) (qp qd qn : Q) :
  represents price qp -> represents divisor qd -> represents n qn ->
  ~ qd == 0 ->
  represents (costBeforeDiscount price n) (qp * qn)
  /\ exists qa,
       represents (getCostAfterDiscount dp price divisor n) qa
       /\ Qabs (qa - exactCostAfterDiscount qp qd qn) <= (1 # 2) / q10 dp
       /\ (onGrid dp (exactCostAfterDiscount qp qd qn) ->
           qa == exactCostAfterDiscount qp qd qn)
       /\ represents (discountBeingApplied dp price divisor n) (qp * qn - qa).
Proof.
  intros Hp Hd Hn Hnz.
  assert (Hb : represents (costBeforeDiscount price n) (qp * qn))
    by (apply represents_times; assumption).
  split; [exact Hb|].
  destruct (getCostAfterDiscount_represents dp price divisor n qp qd qn Hp Hd Hn Hnz)
    as [qa [Ha Hr]].
  exists qa. repeat split.
  - exact Ha.
  - apply roundsTo_error. exact Hr.
  - intro Hg. apply (roundsTo_exact dp); assumption.
  - unfold discountBeingApplied. apply represents_minus; assumption.
Qed.

Lemma pricing_formulas_witness :
  represents (costBeforeDiscount (BN.ofZ 5) (BN.ofZ 100)) (5 * 100)
  /\ exists qa,
       represents (getCostAfterDiscount 20 (BN.ofZ 5) (BN.ofZ 2000) (BN.ofZ 100)) qa
       /\ Qabs (qa - exactCostAfterDiscount 5 2000 100) <= (1 # 2) / q10 20
       /\ (onGrid 20 (exactCostAfterDiscount 5 2000 100) ->
           qa == exactCostAfterDiscount 5 2000 100)
       /\ represents (discountBeingApplied 20 (BN.ofZ 5) (BN.ofZ 2000) (BN.ofZ 100))
            (5 * 100 - qa).
Proof.
  apply (pricing_formulas 20 (BN.ofZ 5) (BN.ofZ 2000) (BN.ofZ 100) 5 2000 100).
  - reflexivity.
  - reflexivity.
  - reflexivity.
  - intro H. discriminate H.
Defined.

(** The documented scenario: 100 tickets at price 5 with divisor 2000 cost
    500 before and 475.25 after the discount, a discount of 4.95 percent. *)
Example scenario_100_tickets :
  represents (costBeforeDiscount (BN.ofZ 5) (BN.ofZ 100)) 500
  /\ represents (getCostAfterDiscount 20 (BN.ofZ 5) (BN.ofZ 2000) (BN.ofZ 100)) (47525 # 100)
  /\ represents (discountBeingApplied 20 (BN.ofZ 5) (BN.ofZ 2000) (BN.ofZ 100)) (2475 # 100)
  /\ (2475 # 100) / 500 * 100 == 495 # 100.
Proof. repeat split. Qed.

(** C1 fails as stated: with price 1, divisor 3 and 2 tickets the formula's
    value is 4/3, which no decimal holds; the engine returns
    1.33333333333333333333 under the default 20 decimal places. *)
Lemma costAfterDiscount_not_exact :
  getCostAfterDiscount 20 (BN.ofZ 1) (BN.ofZ 3) (BN.ofZ 2)
    = Finite (mkDecimal 133333333333333333333 20)
  /\ exactCostAfterDiscount 1 3 2 == 4 # 3
  /\ ~ represents (getCostAfterDiscount 20 (BN.ofZ 1) (BN.ofZ 3) (BN.ofZ 2))
         (exactCostAfterDiscount 1 3 2).
Proof.
  split; [reflexivity|]. split; [reflexivity|].
  intro H. vm_compute in H. discriminate H.
Qed.

Lemma pow10_mod3 (k : nat) : (pow10 k mod 3 = 1)%Z.
Proof.
  induction k.
  - reflexivity.
  - replace (S k) with (k + 1)%nat by lia. rewrite pow10_add.
    rewrite Z.mul_mod, IHk by lia. reflexivity.
Qed.

(** The same holds whatever [DECIMAL_PLACES] is: 4/3 is not a decimal. *)
Lemma costAfterDiscount_never_exact (dp : nat) :
  ~ represents (getCostAfterDiscount dp (BN.ofZ 1) (BN.ofZ 3) (BN.ofZ 2))
      (exactCostAfterDiscount 1 3 2).
Proof.
  intro H.
  destruct (getCostAfterDiscount_represents dp (BN.ofZ 1) (BN.ofZ 3) (BN.ofZ 2) 1 3 2)
    as [qa [Ha [k [Hk _]]]]; try reflexivity.
  { intro E. discriminate E. }
  assert (E : qa == 4 # 3).
  { destruct (getCostAfterDiscount dp (BN.ofZ 1) (BN.ofZ 3) (BN.ofZ 2)); simpl in *;
      try contradiction.
    rewrite <- Ha, H. reflexivity. }
  rewrite Hk in E.
  assert (E' : inject_Z (3 * k) == inject_Z (4 * pow10 dp)).
  { rewrite !inject_Z_mult. fold (q10 dp).
    pose proof (q10_nonzero dp).
    setoid_replace (inject_Z k) with ((4 # 3) * q10 dp) by (rewrite <- E; field; assumption).
    change (inject_Z 3) with 3. change (inject_Z 4) with 4. field. }
  rewrite inject_Z_injective in E'.
  pose proof (pow10_mod3 dp) as Hm.
  assert ((4 * pow10 dp) mod 3 = 0)%Z.
  { rewrite <- E'. rewrite Z.mul_comm. apply Z.mod_mul. lia. }
  rewrite Z.mul_mod, Hm in H0 by lia. discriminate H0.
Qed.

(** ** Displayed figures *)

Lemma displayed_shown (fmt : BigNumber -> option Z -> option Z -> string)
    (x : BigNumber) (d a : option Z) :
  displayed fmt x d a
  = if BN.gt x (BN.ofZ 0) then fmt (shownAmount x) d a else "0"%string.
Proof. unfold displayed, shownAmount. destruct (BN.gt x (BN.ofZ 0)); reflexivity. Qed.

Lemma updateCostFigures_fields (dp : nat)
    (fmt : BigNumber -> option Z -> option Z -> string)
    (price divisor : BigNumber) (st : State) :
  let n := BNString.ofString (ticketsToBuy st) in
  let st' := updateCostFigures dp fmt price divisor st in
  ticketCostBeforeDiscount st' = displayed fmt (costBeforeDiscount price n) None None
  /\ totalCost st' = displayed fmt (getCostAfterDiscount dp price divisor n) None None
  /\ discountValue st'
     = displayed fmt (discountBeingApplied dp price divisor n) (Some 18%Z) (Some 5%Z).
Proof. repeat split. Qed.





Lemma represents_shownAmount (x : BigNumber) (q : Q) :
  represents x q -> represents (shownAmount x) (Qmax 0 q).
Proof.
  intro H. unfold shownAmount.
  destruct (BN.gt x (BN.ofZ 0)) eqn:E.
  - apply (represents_gt x (BN.ofZ 0) q 0 H (represents_ofZ 0)) in E.
    apply (represents_ext x q); [|exact H].
    symmetry. apply Q.max_r. lra.
  - assert (~ 0 < q).
    { intro Hq. apply (represents_gt x (BN.ofZ 0) q 0 H (represents_ofZ 0)) in Hq.
      congruence. }
    apply (represents_ext _ 0); [|apply (represents_ofZ 0)].
    symmetry. apply Q.max_l. lra.
Qed.

(** The "Cost" line formats the cost before discount without the clamp; for
    a price and a ticket count that are not negative it is the amount the
    clamp would show. *)
Lemma costInCake_amount (fmt : BigNumber -> option Z -> option Z -> string)
    (price : BigNumber) (st : State) (qp : Q) (k : Z) :
  represents price qp -> represents (BNString.ofString (ticketsToBuy st)) (inject_Z k) ->
  0 <= qp -> (0 <= k)%Z ->
  costInCake fmt price st
  = fmt (costBeforeDiscount price (BNString.ofString (ticketsToBuy st))) None None
  /\ represents (costBeforeDiscount price (BNString.ofString (ticketsToBuy st)))
       (qp * inject_Z k)
  /\ represents (shownAmount (costBeforeDiscount price (BNString.ofString (ticketsToBuy st))))
       (qp * inject_Z k).
Proof.
  intros Hp Hn Hp0 Hk.
  assert (Hb : represents (costBeforeDiscount price (BNString.ofString (ticketsToBuy st)))
                 (qp * inject_Z k)) by (apply represents_times; assumption).
  split; [reflexivity|]. split; [exact Hb|].
  apply (represents_ext _ (Qmax 0 (qp * inject_Z k))).
  - apply Q.max_r. apply Qmult_le_0_compat; [assumption|].
    change 0 with (inject_Z 0). rewrite <- Zle_Qle. exact Hk.
  - apply represents_shownAmount. exact Hb.
Qed.





(** The order of the two displayed costs can be reversed under every
    [DECIMAL_PLACES]: a price of [6 * 10^-(dp+1)], one ticket, divisor 1. *)
Lemma displayed_cost_after_exceeds_before_any (dp : nat) :
  let price := Finite (mkDecimal 6 (dp + 1)) in
  BN.gt (shownAmount (getCostAfterDiscount dp price (BN.ofZ 1) (BN.ofZ 1)))
        (shownAmount (costBeforeDiscount price (BN.ofZ 1))) = true.
Proof.
  cbv zeta. set (price := Finite (mkDecimal 6 (dp + 1))).
  pose proof (q10_pos dp) as HP.
  assert (Hp : represents price (6 / (10 * q10 dp))).
  { unfold price. simpl. rewrite toQ_mk, q10_add. cbn [inject_Z].
    change (q10 1) with 10. field. lra. }
  assert (Hb : represents (costBeforeDiscount price (BN.ofZ 1)) (6 / (10 * q10 dp))).
  { apply (represents_ext _ (6 / (10 * q10 dp) * inject_Z 1)).
    - change (inject_Z 1) with 1. ring.
    - apply represents_times; [exact Hp | apply represents_ofZ]. }
  destruct (getCostAfterDiscount_represents dp price (BN.ofZ 1) (BN.ofZ 1)
              (6 / (10 * q10 dp)) (inject_Z 1) (inject_Z 1) Hp
              (represents_ofZ 1) (represents_ofZ 1))
    as [qa [Ha [k [Hk [Hlo _]]]]].
  { discriminate. }
  assert (E : exactCostAfterDiscount (6 / (10 * q10 dp)) (inject_Z 1) (inject_Z 1)
              * q10 dp == 6 # 10).
  { unfold exactCostAfterDiscount. change (inject_Z 1) with 1. field. lra. }
  rewrite E in Hlo.
  assert (Hk1 : (1 <= k)%Z).
  { assert (H0 : inject_Z 0 < inject_Z k) by (change (inject_Z 0) with 0; lra).
    rewrite <- Zlt_Qlt in H0. lia. }
  assert (Hk1q : 1 <= inject_Z k).
  { change 1 with (inject_Z 1). rewrite <- Zle_Qle. exact Hk1. }
  assert (Hlt : 6 / (10 * q10 dp) < qa).
  { rewrite Hk. apply Qlt_shift_div_l; [assumption|].
    setoid_replace (6 / (10 * q10 dp) * q10 dp) with (6 # 10) by (field; lra).
    lra. }
  assert (H6 : 0 < 6 / (10 * q10 dp)).
  { apply Qlt_shift_div_l; lra. }
  apply (represents_gt _ _ (Qmax 0 qa) (Qmax 0 (6 / (10 * q10 dp)))).
  - apply represents_shownAmount. exact Ha.
  - apply represents_shownAmount. exact Hb.
  - rewrite (Q.max_r 0 qa) by lra. rewrite (Q.max_r 0 (6 / (10 * q10 dp))) by lra.
    exact Hlt.
Qed.

(** * The purchase-quantity validator *)

Lemma getMaxPossiblePurchase_max (dp : nat) (cap price balance : BigNumber)
    (fs : FetchStatus) (st : State) :
  maxPossibleTicketPurchase (getMaxPossiblePurchase dp cap price balance fs st)
  = limitNumberByMaxTicketsPerBuy cap (BN.div dp balance price).
Proof.
  unfold getMaxPossiblePurchase, memoisedUserCake.
  destruct (hasFetchedBalance fs && _)%bool; reflexivity.
Qed.

Lemma getMaxPossiblePurchase_flag (dp : nat) (cap price balance : BigNumber)
    (fs : FetchStatus) (st : State) :
  userNotEnoughCake (getMaxPossiblePurchase dp cap price balance fs st)
  = (isSuccess fs
     && BN.eq (maxPossibleTicketPurchase (getMaxPossiblePurchase dp cap price balance fs st))
          (BN.ofZ 0))%bool.
Proof.
  rewrite getMaxPossiblePurchase_max.
  unfold getMaxPossiblePurchase, memoisedUserCake, hasFetchedBalance.
  destruct (isSuccess fs && _)%bool; reflexivity.
Qed.

(** The clamp is a minimum. *)
Lemma limit_represents (cap number : BigNumber) (qc qn : Q) :
  represents cap qc -> represents number qn ->
  represents (limitNumberByMaxTicketsPerBuy cap number) (Qmin qn qc).
Proof.
  intros Hc Hn. unfold limitNumberByMaxTicketsPerBuy.
  destruct (BN.gt number cap) eqn:E.
  - apply (represents_gt _ _ qn qc Hn Hc) in E.
    apply (represents_ext _ qc); [|exact Hc].
    symmetry. apply Q.min_r. lra.
  - assert (~ qc < qn).
    { intro H. apply (represents_gt _ _ qn qc Hn Hc) in H. congruence. }
    apply (represents_ext _ qn); [|exact Hn].
    symmetry. apply Q.min_l. lra.
Qed.

(** Clamping a clamped value changes nothing. *)
Lemma limit_idempotent (cap number : BigNumber) :
  limitNumberByMaxTicketsPerBuy cap (limitNumberByMaxTicketsPerBuy cap number)
  = limitNumberByMaxTicketsPerBuy cap number.
Proof.
  unfold limitNumberByMaxTicketsPerBuy.
  destruct (BN.gt number cap) eqn:E.
  - destruct (BN.gt cap cap); reflexivity.
  - rewrite E. reflexivity.
Qed.

Lemma maxPossiblePurchase_represents (dp : nat) (cap price balance : BigNumber)
    (fs : FetchStatus) (st : State) (qc qp qb : Q) :
  represents balance qb -> represents price qp -> represents cap qc ->
  ~ qp == 0 ->
  exists q,
    roundsTo dp (qb / qp) q
    /\ represents
         (maxPossibleTicketPurchase (getMaxPossiblePurchase dp cap price balance fs st))
         (Qmin q qc).
Proof.
  intros Hb Hp Hc Hp0.
  destruct (div_represents dp balance price qb qp Hb Hp Hp0) as [q [Hq Hr]].
  exists q. split; [exact Hr|].
  rewrite getMaxPossiblePurchase_max. apply limit_represents; assumption.
Qed.

(** C2 (as amended).  For a balance [>= 0], a price [> 0] and a finite cap,
    the maximum possible purchase is the minimum of the cap and the quotient
    balance / price as [div] returns it, rounded to [DECIMAL_PLACES] decimal
    places and not floored. *)
Theorem maxPossiblePurchase_is_min (dp : nat) (cap price balance : BigNumber)
    (fs : FetchStatus) (st : State) (qc qp qb : Q) :
  represents balance qb -> represents price qp -> represents cap qc ->
  0 <= qb -> 0 < qp ->
  exists q,
    roundsTo dp (qb / qp) q
    /\ represents
         (maxPossibleTicketPurchase (getMaxPossiblePurchase dp cap price balance fs st))
         (Qmin q qc).
Proof.
  intros Hb Hp Hc _ Hp0.
  apply maxPossiblePurchase_represents; try assumption. lra.
Qed.

Lemma maxPossiblePurchase_is_min_witness :
  exists q,
    roundsTo 20 (5 / 2) q
    /\ represents
         (maxPossibleTicketPurchase
            (getMaxPossiblePurchase 20 (BN.ofZ 100) (BN.ofZ 2) (BN.ofZ 5) SUCCESS initialState))
         (Qmin q 100).
Proof.
  apply (maxPossiblePurchase_is_min 20 (BN.ofZ 100) (BN.ofZ 2) (BN.ofZ 5)
           SUCCESS initialState 100 2 5).
  - reflexivity.
  - reflexivity.
  - reflexivity.
  - discriminate.
  - reflexivity.
Defined.

(** C2 fails as stated: with balance 5, price 2 and cap 100 the maximum
    possible purchase is 2.5, not min(floor(5/2), 100) = 2, and it is not an
    integer. *)
Lemma maxPossiblePurchase_not_floored :
  let st := getMaxPossiblePurchase 20 (BN.ofZ 100) (BN.ofZ 2) (BN.ofZ 5) SUCCESS initialState in
  maxPossibleTicketPurchase st = Finite (mkDecimal 250000000000000000000 20)
  /\ represents (maxPossibleTicketPurchase st) (5 # 2)
  /\ Qmin (inject_Z (Qfloor (5 / 2))) 100 == 2
  /\ ~ represents (maxPossibleTicketPurchase st) (Qmin (inject_Z (Qfloor (5 / 2))) 100)
  /\ BN.eq (maxPossibleTicketPurchase st)
       (BNString.ofNumber (BNString.floorToNumber (maxPossibleTicketPurchase st))) = false.
Proof.
  cbv zeta.
  split; [vm_compute; reflexivity|].
  split; [vm_compute; reflexivity|].
  split; [vm_compute; reflexivity|].
  split; [intro H; vm_compute in H; discriminate H|].
  vm_compute; reflexivity.
Qed.

Lemma represents_unique (x : BigNumber) (q q' : Q) :
  represents x q -> represents x q' -> q == q'.
Proof.
  destruct x; simpl; try tauto. intros H H'. rewrite <- H, <- H'. reflexivity.
Qed.

(** Whatever [DECIMAL_PLACES] is, as long as it leaves one decimal place to
    hold 2.5. *)
Lemma maxPossiblePurchase_never_floored (dp : nat) :
  (0 < dp)%nat ->
  ~ represents
      (maxPossibleTicketPurchase
         (getMaxPossiblePurchase dp (BN.ofZ 100) (BN.ofZ 2) (BN.ofZ 5) SUCCESS initialState))
      (Qmin (inject_Z (Qfloor (5 / 2))) 100).
Proof.
  intros Hdp H.
  destruct (maxPossiblePurchase_represents dp (BN.ofZ 100) (BN.ofZ 2) (BN.ofZ 5)
              SUCCESS initialState 100 2 5) as [q [[k [Hk [Hlo Hhi]]] Hq]];
    try reflexivity; try discriminate.
  pose proof (represents_unique _ _ _ Hq H) as E.
  change (Qmin (inject_Z (Qfloor (5 / 2))) 100) with 2 in E.
  assert (Eq : q == 2).
  { destruct (Q.min_spec q 100) as [[_ Hm] | [_ Hm]]; rewrite Hm in E.
    - exact E.
    - discriminate E. }
  pose proof (q10_pos dp) as Hp.
  assert (Ek : inject_Z k == 2 * q10 dp) by (rewrite <- Eq, Hk; field; lra).
  rewrite Ek in Hlo, Hhi.
  assert (10 <= q10 dp).
  { unfold q10. change 10 with (inject_Z 10). rewrite <- Zle_Qle.
    destruct dp as [|dp']; [lia|].
    replace (S dp') with (dp' + 1)%nat by lia. rewrite pow10_add.
    pose proof (pow10_pos dp'). change (pow10 1) with 10%Z. lia. }
  setoid_replace (5 / 2 * q10 dp) with ((5 # 2) * q10 dp) in Hlo by reflexivity.
  lra.
Qed.




(** With a negative cap the clamp returns the cap, and the flag stays down:
    the side condition on the cap is needed. *)
Example insufficientBalance_negative_cap :
  let st' := getMaxPossiblePurchase 20 (BN.ofZ (-1)) (BN.ofZ 5) (BN.ofZ 0) SUCCESS initialState in
  maxPossibleTicketPurchase st' = BN.ofZ (-1) /\ userNotEnoughCake st' = false.
Proof. split; reflexivity. Qed.

(** ** Percentage shortcuts *)

Lemma floorToNumber_represents (x : BigNumber) (q : Q) :
  represents x q -> BNString.floorToNumber x = JInt (Qfloor q).
Proof.
  destruct x as [| |d]; simpl; try tauto.
  intro H. rewrite <- H. unfold toQ, Qfloor.
  rewrite Z2Pos.id by apply pow10_pos. reflexivity.
Qed.







Lemma inject_Z_gap_lt_one (k j : Z) :
  (inject_Z k - inject_Z j < 1)%Q -> (k <= j)%Z.
Proof.
  intro H.
  assert (Hlt : (inject_Z k < inject_Z (j + 1))%Q).
  { rewrite inject_Z_plus. change (inject_Z 1) with 1%Q. lra. }
  rewrite <- Zlt_Qlt in Hlt. lia.
Qed.

(** The same under every [DECIMAL_PLACES >= 2]: a balance of
    [4 * 10^dp - 1] and a price of [10^dp] give a maximum possible purchase
    just below 4, and the 100 percent shortcut offers 4 tickets. *)
Lemma percentage_shortcut_rounds_up_any (dp : nat) :
  (2 <= dp)%nat ->
  let st := getMaxPossiblePurchase dp (BN.ofZ 100) (BN.ofZ (pow10 dp))
              (BN.ofZ (4 * pow10 dp - 1)) SUCCESS initialState in
  represents (maxPossibleTicketPurchase st) (4 - 1 / q10 dp)
  /\ Qfloor ((4 - 1 / q10 dp) * 100 / 100) = 3%Z
  /\ getNumTicketsByPercentage dp st 100 = JInt 4.
Proof.
  intro Hdp. cbv zeta.
  pose proof (q10_pos dp) as HP.
  assert (HP100 : 100 <= q10 dp).
  { unfold q10. change 100 with (inject_Z 100). rewrite <- Zle_Qle.
    replace dp with ((dp - 2) + 2)%nat by lia. rewrite pow10_add.
    pose proof (pow10_pos (dp - 2)). change (pow10 2) with 100%Z. lia. }
  set (st := getMaxPossiblePurchase dp _ _ _ SUCCESS initialState).
  assert (Hm : represents (maxPossibleTicketPurchase st) (4 - 1 / q10 dp)).
  { destruct (maxPossiblePurchase_represents dp (BN.ofZ 100) (BN.ofZ (pow10 dp))
                (BN.ofZ (4 * pow10 dp - 1)) SUCCESS initialState
                100 (q10 dp) (inject_Z (4 * pow10 dp - 1)))
      as [q [Hr Hq]]; try apply represents_ofZ.
    { lra. }
    assert (Eb : inject_Z (4 * pow10 dp - 1) == 4 * q10 dp - 1).
    { unfold Z.sub. rewrite inject_Z_plus, inject_Z_mult. reflexivity. }
    assert (Eq : q == 4 - 1 / q10 dp).
    { rewrite (roundsTo_exact dp _ q Hr).
      - rewrite Eb. field. lra.
      - exists (4 * pow10 dp - 1)%Z. reflexivity. }
    apply (represents_ext _ (Qmin q 100)); [|exact Hq].
    rewrite Q.min_l.
    - exact Eq.
    - rewrite Eq. assert (0 < 1 / q10 dp) by (apply Qlt_shift_div_l; lra). lra. }
  split; [exact Hm|].
  assert (Hinv : 0 < 1 / q10 dp <= 1 # 100).
  { split.
    - apply Qlt_shift_div_l; lra.
    - apply Qle_shift_div_r; [assumption | lra]. }
  split.
  { assert (E : (4 - 1 / q10 dp) * 100 / 100 == 4 - 1 / q10 dp) by (field; lra).
    rewrite (Qfloor_comp _ _ E).
    apply Z.le_antisymm.
    - assert (Hlt : inject_Z (Qfloor (4 - 1 / q10 dp)) < inject_Z 4).
      { apply Qle_lt_trans with (4 - 1 / q10 dp); [apply Qfloor_le|].
        change (inject_Z 4) with 4. lra. }
      rewrite <- Zlt_Qlt in Hlt. lia.
    - change 3%Z with (Qfloor (inject_Z 3)) at 1.
      apply Qfloor_resp_le. change (inject_Z 3) with 3. lra. }
  unfold getNumTicketsByPercentage.
  replace (BN.gt (maxPossibleTicketPurchase st) (BN.ofZ 0)) with true.
  2:{ symmetry. apply (represents_gt _ _ _ 0 Hm (represents_ofZ 0)). lra. }
  destruct (div_represents dp (maxPossibleTicketPurchase st) (BN.ofZ 100)
              (4 - 1 / q10 dp) 100 Hm (represents_ofZ 100))
    as [q2 [Hq2 [k [Hk [Hlo Hhi]]]]].
  { discriminate. }
  set (j := (4 * pow10 (dp - 2))%Z).
  assert (Ej : inject_Z j == (4 # 100) * q10 dp).
  { unfold j. rewrite inject_Z_mult. fold (q10 (dp - 2)).
    assert (E : q10 dp == q10 (dp - 2) * 100).
    { rewrite <- (q10_add (dp - 2) 2). replace (dp - 2 + 2)%nat with dp by lia.
      reflexivity. }
    rewrite E. change (inject_Z 4) with 4. field. }
  assert (Ex : (4 - 1 / q10 dp) / 100 * q10 dp == inject_Z j - (1 # 100)).
  { rewrite Ej. field. lra. }
  rewrite Ex in Hlo, Hhi.
  assert (k = j).
  { apply Z.le_antisymm; apply inject_Z_gap_lt_one; lra. }
  subst k.
  assert (Eq2 : q2 == 4 # 100).
  { rewrite Hk, Ej. field. lra. }
  rewrite (floorToNumber_represents _ ((4 # 100) * inject_Z 100)).
  - reflexivity.
  - apply represents_times; [|apply represents_ofZ].
    apply (represents_ext _ q2); [exact Eq2 | exact Hq2].
Qed.

(** ** The input handler *)

Lemma parseInt10_cases (s : string) :
  parseInt10 s = JNaN \/ exists z, parseInt10 s = JInt z.
Proof.
  unfold parseInt10.
  destruct (scanSign true (skipWhiteSpace s)) as [neg s1].
  destruct (scanDigits s1 0 0) as [[v n] r].
  destruct n; [left; reflexivity | right; eexists; reflexivity].
Qed.

Lemma handleInputChange_kept (cap price balance : BigNumber) (input : string)
    (st : State) :
  let st' := handleInputChange cap price balance input st in
  maxPossibleTicketPurchase st' = maxPossibleTicketPurchase st
  /\ discountValue st' = discountValue st
  /\ totalCost st' = totalCost st
  /\ ticketCostBeforeDiscount st' = ticketCostBeforeDiscount st.
Proof.
  unfold handleInputChange.
  destruct (BN.gt _ balance); [|destruct (BN.eq _ _)]; repeat split.
Qed.

(** C5 (as amended).  For an input that [parseInt] reads as the integer
    [raw], the handler clamps it to [limited = min(raw, cap)]; if
    [price * limited > balance] it raises the insufficient-balance flag (and
    leaves the cap-exceeded flag as it was), else if [limited] equals the
    maximum possible purchase it raises the cap-exceeded flag, else it clears
    both.  For [raw] above the cap, [limited] is the cap, and the
    cap-exceeded flag is raised when [price * cap <= balance] and the cap
    equals the maximum possible purchase. *)
Theorem handleInputChange_flags (cap price balance : BigNumber) (input : string)
    (st : State) (raw : Z) (qc : Q) :
  parseInt10 input = JInt raw -> represents cap qc ->
  let limited := limitNumberByMaxTicketsPerBuy cap (BN.ofZ raw) in
  let st' := handleInputChange cap price balance input st in
  represents limited (Qmin (inject_Z raw) qc)
  /\ (BN.gt (BN.times price limited) balance = true ->
      userNotEnoughCake st' = true
      /\ maxTicketPurchaseExceeded st' = maxTicketPurchaseExceeded st)
  /\ (BN.gt (BN.times price limited) balance = false ->
      BN.eq limited (maxPossibleTicketPurchase st) = true ->
      maxTicketPurchaseExceeded st' = true
      /\ userNotEnoughCake st' = userNotEnoughCake st)
  /\ (BN.gt (BN.times price limited) balance = false ->
      BN.eq limited (maxPossibleTicketPurchase st) = false ->
      maxTicketPurchaseExceeded st' = false /\ userNotEnoughCake st' = false)
  /\ (qc < inject_Z raw ->
      limited = cap
      /\ (BN.gt (BN.times price cap) balance = false ->
          BN.eq cap (maxPossibleTicketPurchase st) = true ->
          maxTicketPurchaseExceeded st' = true)).
Proof.
  intros Hparse Hcap. cbv zeta.
  unfold handleInputChange, getCakeValueOfTickets. rewrite Hparse.
  cbn [BNString.ofNumber].
  split; [apply limit_represents; [assumption | apply represents_ofZ]|].
  split; [intros ->; split; reflexivity|].
  split; [intros -> ->; split; reflexivity|].
  split; [intros -> ->; split; reflexivity|].
  intro Hgt.
  assert (E : limitNumberByMaxTicketsPerBuy cap (BN.ofZ raw) = cap).
  { unfold limitNumberByMaxTicketsPerBuy.
    replace (BN.gt (BN.ofZ raw) cap) with true; [reflexivity|].
    symmetry. apply (represents_gt _ _ (inject_Z raw) qc (represents_ofZ raw) Hcap).
    exact Hgt. }
  rewrite E. split; [reflexivity|].
  intros -> ->. reflexivity.
Qed.

Lemma handleInputChange_flags_witness :
  let cap := BN.ofZ 100 in
  let price := BN.ofZ 5 in
  let balance := BN.ofZ 2000 in
  let st := getMaxPossiblePurchase 20 cap price balance SUCCESS initialState in
  let limited := limitNumberByMaxTicketsPerBuy cap (BN.ofZ 150) in
  let st' := handleInputChange cap price balance "150" st in
  represents limited (Qmin (inject_Z 150) 100)
  /\ limited = cap
  /\ maxTicketPurchaseExceeded st' = true.
Proof.
  cbv zeta.
  destruct (handleInputChange_flags (BN.ofZ 100) (BN.ofZ 5) (BN.ofZ 2000) "150"
              (getMaxPossiblePurchase 20 (BN.ofZ 100) (BN.ofZ 5) (BN.ofZ 2000)
                 SUCCESS initialState) 150 100)
    as [Hl [_ [_ [_ Hcap]]]]; try reflexivity.
  split; [exact Hl|].
  destruct Hcap as [Hc Hf]; [reflexivity|].
  split; [exact Hc | apply Hf; vm_compute; reflexivity].
Defined.

(** For a state the validator has computed from the same balance, price and
    cap, an affordable cap equals the maximum possible purchase: an input
    above the cap then raises the cap-exceeded flag. *)
Lemma cap_is_max_when_affordable (dp : nat) (cap price balance : BigNumber)
    (fs : FetchStatus) (st : State) (qc qp qb : Q) :
  represents cap qc -> represents price qp -> represents balance qb ->
  0 < qp -> onGrid dp qc ->
  BN.gt (BN.times price cap) balance = false ->
  BN.eq cap
    (maxPossibleTicketPurchase (getMaxPossiblePurchase dp cap price balance fs st))
  = true.
Proof.
  intros Hc Hp Hb Hp0 Hg Hgt.
  assert (Hle : qp * qc <= qb).
  { assert (~ qb < qp * qc).
    { intro H.
      apply (represents_gt _ _ (qp * qc) qb (represents_times _ _ _ _ Hp Hc) Hb) in H.
      congruence. }
    lra. }
  destruct (div_represents dp balance price qb qp Hb Hp) as [q [Hq Hr]]; [lra|].
  assert (Hcq : qc <= q).
  { apply (roundsTo_ge_grid dp (qb / qp) q qc Hr Hg).
    apply Qle_shift_div_l; [assumption | lra]. }
  rewrite getMaxPossiblePurchase_max.
  apply (represents_eq _ _ qc (Qmin q qc) Hc (limit_represents _ _ _ _ Hc Hq)).
  symmetry. apply Q.min_r. exact Hcq.
Qed.

(** C5 fails as stated: cap 100, price 5, balance 20 and the input ["150"].
    The input exceeds the cap and is clamped to it, but 100 tickets cost more
    than the balance, so the handler raises the insufficient-balance flag
    and the cap-exceeded flag stays down. *)
Lemma capExceeded_not_set_above_cap :
  let cap := BN.ofZ 100 in
  let price := BN.ofZ 5 in
  let balance := BN.ofZ 20 in
  let st := getMaxPossiblePurchase 20 cap price balance SUCCESS initialState in
  let st' := handleInputChange cap price balance "150" st in
  parseInt10 "150" = JInt 150
  /\ limitNumberByMaxTicketsPerBuy cap (BN.ofZ 150) = cap
  /\ ticketsToBuy st' = "100"%string
  /\ userNotEnoughCake st' = true
  /\ maxTicketPurchaseExceeded st' = false.
Proof. cbv zeta. repeat split; vm_compute; reflexivity. Qed.

(** *** Input in which [parseInt] finds no integer *)





Example no_integer_inputs :
  hasLeadingInteger EmptyString = false /\ hasLeadingInteger "abc" = false
  /\ hasLeadingInteger "." = false /\ hasLeadingInteger ".5" = false
  /\ hasLeadingInteger " -" = false /\ hasLeadingInteger "12abc" = true.
Proof. repeat split. Qed.

(** An input that reads as zero is stored as ["0"] too. *)
Lemma handleInputChange_zero (cap price balance : BigNumber) (input : string)
    (st : State) :
  parseInt10 input = JInt 0 ->
  ticketsToBuy (handleInputChange cap price balance input st) = "0"%string.
Proof.
  intro H. unfold handleInputChange. rewrite H. reflexivity.
Qed.


(** * Gating the purchase *)

Lemma lte_ofZ (a b : Z) : BN.lte (BN.ofZ a) (BN.ofZ b) = (a <=? b)%Z.
Proof.
  unfold BN.lte, BN.ofZ, BN.compare. cbn [coeff scale].
  change (pow10 0) with 1%Z. rewrite !Z.mul_1_r.
  destruct (Z.compare_spec a b); symmetry;
    [apply Z.leb_le | apply Z.leb_le | apply Z.leb_gt]; lia.
Qed.

Lemma gt_ofZ (a b : Z) : BN.gt (BN.ofZ a) (BN.ofZ b) = (b <? a)%Z.
Proof.
  unfold BN.gt, BN.ofZ, BN.compare. cbn [coeff scale].
  change (pow10 0) with 1%Z. rewrite !Z.mul_1_r.
  destruct (Z.compare_spec a b); symmetry;
    [apply Z.ltb_ge | apply Z.ltb_ge | apply Z.ltb_lt]; lia.
Qed.

Lemma disableBuying_numeral (isApproved isConfirmed : bool)
    (tickets : list TicketNumber) (st : State) (q : Z) :
  ticketsToBuy st = numeral q ->
  disableBuying isApproved isConfirmed tickets st
  = (negb isApproved || isConfirmed || userNotEnoughCake st
     || (q <=? 0)%Z || negb (Z.of_nat (List.length tickets) =? q)%Z)%bool.
Proof.
  intro H. unfold disableBuying.
  rewrite H, numeral_nonempty, ofString_numeral, parseInt10_numeral, lte_ofZ.
  cbn [numberStrictEq]. rewrite Bool.orb_false_r. reflexivity.
Qed.

(** C3.  With the requested quantity stored as the numeral of an integer
    [q], the purchase action is enabled exactly when approval has been
    granted, the flow is not confirmed, the insufficient-balance flag is
    down, [q] is positive and the ticket-set collaborator returns exactly [q]
    ticket numbers. *)
Theorem disableBuying_iff (isApproved isConfirmed : bool)
    (tickets : list TicketNumber) (st : State) (q : Z) :
  ticketsToBuy st = numeral q ->
  (disableBuying isApproved isConfirmed tickets st = false
   <-> isApproved = true /\ isConfirmed = false /\ userNotEnoughCake st = false
       /\ (0 < q)%Z /\ Z.of_nat (List.length tickets) = q).
Proof.
  intro H. rewrite (disableBuying_numeral _ _ _ _ q H).
  rewrite !Bool.orb_false_iff, Bool.negb_false_iff, Bool.negb_false_iff.
  rewrite Z.leb_gt, Z.eqb_eq. tauto.
Qed.

Lemma disableBuying_iff_witness :
  let st := setTicketsToBuy (numeral 2) initialState in
  disableBuying true false [1234567; 1765432]%Z st = false
  <-> true = true /\ false = false /\ userNotEnoughCake st = false
      /\ (0 < 2)%Z /\ Z.of_nat (List.length [1234567; 1765432]%Z) = 2%Z.
Proof.
  apply (disableBuying_iff true false [1234567; 1765432]%Z
           (setTicketsToBuy (numeral 2) initialState) 2).
  reflexivity.
Defined.

(** C10.  In a state whose cap-exceeded flag is up and whose
    insufficient-balance flag is down, with approval granted, the flow not
    confirmed, a positive quantity [q] and exactly [q] ticket numbers, the
    purchase action is enabled; the gate does not read the cap-exceeded
    flag at all. *)
Theorem capExceeded_not_consulted (isApproved isConfirmed : bool)
    (tickets : list TicketNumber) (st : State) (q : Z) :
  maxTicketPurchaseExceeded st = true -> userNotEnoughCake st = false ->
  isApproved = true -> isConfirmed = false ->
  ticketsToBuy st = numeral q -> (0 < q)%Z ->
  Z.of_nat (List.length tickets) = q ->
  disableBuying isApproved isConfirmed tickets st = false
  /\ forall b : bool,
       disableBuying isApproved isConfirmed tickets (setMaxTicketPurchaseExceeded b st)
       = disableBuying isApproved isConfirmed tickets st.
Proof.
  intros _ Hn Ha Hc Ht Hq Hl. split.
  - rewrite (disableBuying_numeral _ _ _ _ q Ht), Ha, Hc, Hn, Hl.
    cbn [negb orb]. rewrite Z.eqb_refl.
    replace (q <=? 0)%Z with false by (symmetry; apply Z.leb_gt; exact Hq).
    reflexivity.
  - intro b. reflexivity.
Qed.

Lemma capExceeded_not_consulted_witness :
  let st := setMaxTicketPurchaseExceeded true (setTicketsToBuy (numeral 2) initialState) in
  disableBuying true false [1234567; 1765432]%Z st = false
  /\ forall b : bool,
       disableBuying true false [1234567; 1765432]%Z (setMaxTicketPurchaseExceeded b st)
       = disableBuying true false [1234567; 1765432]%Z st.
Proof.
  apply (capExceeded_not_consulted true false [1234567; 1765432]%Z
           (setMaxTicketPurchaseExceeded true (setTicketsToBuy (numeral 2) initialState))
           2); try reflexivity.
Defined.

(** ** The stored quantity is always a numeral

    Every setter of [ticketsToBuy] writes the numeral of an integer, as long
    as the cap is an integer: the hypothesis of C3 and C10 holds in every
    state the component reaches. *)








(** Outside the numerals the gate and the quantity can disagree: the
    quantity 2.5 is not a positive integer, yet with two ticket numbers the
    action would be enabled, because [parseInt] reads 2. *)
Example disableBuying_fractional_quantity :
  disableBuying true false [1234567; 1765432]%Z (setTicketsToBuy "2.5" initialState)
  = false.
Proof. reflexivity. Qed.

(** * The allowance check *)

Lemma onRequiresApproval_true_iff (allowance : Outcome Z) :
  onRequiresApproval allowance = true
  <-> exists a : Z, allowance = Returns a /\ (0 < a)%Z.
Proof.
  destruct allowance as [a|].
  - change (onRequiresApproval (Returns a)) with (BN.gt (BN.ofZ a) (BN.ofZ 0)).
    rewrite gt_ofZ, Z.ltb_lt. split.
    + intro Ha. exists a. split; [reflexivity | exact Ha].
    + intros [a' [E Ha]]. injection E as ->. exact Ha.
  - split; [discriminate | intros [a [E _]]; discriminate E].
Qed.

(** C4.  The allowance check answers "already approved" exactly when the
    allowance query returns a value greater than zero; when the query throws
    it answers no: the account is treated as needing approval, never as
    approved. *)
Theorem allowance_check (allowance : Outcome Z) :
  (onRequiresApproval allowance = true
   <-> exists a : Z, allowance = Returns a /\ (0 < a)%Z)
  /\ onRequiresApproval Throws = false.
Proof.
  split; [apply onRequiresApproval_true_iff | reflexivity].
Qed.

(** With the flow's step as the specification describes it: the flow reaches
    [Approved] exactly for a returned allowance greater than zero, and
    [NeedsApproval] when the query throws. *)
Corollary allowance_flow (allowance : Outcome Z) :
  (allowanceChecked (onRequiresApproval allowance) = Approved
   <-> exists a : Z, allowance = Returns a /\ (0 < a)%Z)
  /\ allowanceChecked (onRequiresApproval Throws) = NeedsApproval.
Proof.
  split; [|reflexivity].
  rewrite <- onRequiresApproval_true_iff. unfold allowanceChecked.
  destruct (onRequiresApproval allowance); split; try reflexivity; discriminate.
Qed.

(** * Further properties of the component *)

(** ** The clamp *)

Lemma gt_irrefl (x : BigNumber) : BN.gt x x = false.
Proof.
  destruct x as [|b|d]; unfold BN.gt, BN.compare.
  - reflexivity.
  - rewrite Bool.eqb_reflx. reflexivity.
  - rewrite Z.compare_refl. reflexivity.
Qed.

Lemma limit_never_exceeds (cap number : BigNumber) :
  BN.gt (limitNumberByMaxTicketsPerBuy cap number) cap = false.
Proof.
  unfold limitNumberByMaxTicketsPerBuy.
  destruct (BN.gt number cap) eqn:E; [apply gt_irrefl | exact E].
Qed.

(** X1.  Whatever the cap and the number are (NaN and the infinities
    included), the clamp returns nothing greater than the cap, and clamping
    twice is clamping once. *)
Theorem limit_bounded_idempotent (cap number : BigNumber) :
  BN.gt (limitNumberByMaxTicketsPerBuy cap number) cap = false
  /\ limitNumberByMaxTicketsPerBuy cap (limitNumberByMaxTicketsPerBuy cap number)
     = limitNumberByMaxTicketsPerBuy cap number.
Proof.
  split; [apply limit_never_exceeds | apply limit_idempotent].
Qed.

Lemma limit_ofZ (c r : Z) :
  limitNumberByMaxTicketsPerBuy (BN.ofZ c) (BN.ofZ r) = BN.ofZ (Z.min r c).
Proof.
  unfold limitNumberByMaxTicketsPerBuy. rewrite gt_ofZ.
  destruct (c <? r)%Z eqn:E.
  - apply Z.ltb_lt in E. rewrite Z.min_r by lia. reflexivity.
  - apply Z.ltb_ge in E. rewrite Z.min_l by lia. reflexivity.
Qed.

(** ** What the input handler stores *)

Lemma handleInputChange_stored (c : Z) (price balance : BigNumber)
    (input : string) (st : State) :
  ticketsToBuy (handleInputChange (BN.ofZ c) price balance input st)
  = numeral (storedQuantity c (parseInt10 input)).
Proof.
  unfold handleInputChange.
  set (flags := if BN.gt _ balance then _ else _). clearbody flags.
  cbn [ticketsToBuy setTicketsToBuy].
  destruct (parseInt10_cases input) as [-> | [z ->]].
  - reflexivity.
  - cbn [truthy BNString.ofNumber storedQuantity].
    destruct (z =? 0)%Z; [reflexivity|].
    cbn [negb]. rewrite limit_ofZ. apply toString_ofZ.
Qed.






(** ** The input handler and the gate *)




(** X5.  When [parseInt] reads an integer from the input and the handler
    leaves the insufficient-balance flag down, the stored quantity is
    affordable: its cost at the current price is not greater than the
    balance (integer cap [c >= 0]). *)
Theorem flag_down_affordable (c : Z) (price balance : BigNumber)
    (input : string) (st : State) (raw : Z) :
  (0 <= c)%Z -> parseInt10 input = JInt raw ->
  let st' := handleInputChange (BN.ofZ c) price balance input st in
  userNotEnoughCake st' = false ->
  BN.gt (BN.times price (BNString.ofString (ticketsToBuy st'))) balance = false.
Proof.
  intros Hc Hparse. cbv zeta. rewrite handleInputChange_stored, ofString_numeral, Hparse.
  assert (Es : storedQuantity c (JInt raw) = Z.min raw c).
  { cbn [storedQuantity]. destruct (Z.eqb_spec raw 0) as [-> | _]; [|reflexivity].
    rewrite Z.min_l by exact Hc. reflexivity. }
  rewrite Es.
  unfold handleInputChange, getCakeValueOfTickets. rewrite Hparse.
  cbn [BNString.ofNumber]. rewrite limit_ofZ.
  destruct (BN.gt (BN.times price (BN.ofZ (Z.min raw c))) balance); [|reflexivity].
  cbn. discriminate.
Qed.

Lemma flag_down_affordable_witness :
  let st' := handleInputChange (BN.ofZ 100) (BN.ofZ 5) (BN.ofZ 2000) "7" initialState in
  BN.gt (BN.times (BN.ofZ 5) (BNString.ofString (ticketsToBuy st'))) (BN.ofZ 2000) = false.
Proof.
  apply (flag_down_affordable 100 (BN.ofZ 5) (BN.ofZ 2000) "7" initialState 7).
  - lia.
  - reflexivity.
  - reflexivity.
Defined.

(** ** How the flags outlive the event that set them *)

Lemma disableBuying_flag_up (isApproved isConfirmed : bool)
    (tickets : list TicketNumber) (st : State) :
  userNotEnoughCake st = true ->
  disableBuying isApproved isConfirmed tickets st = true.
Proof.
  intro H. unfold disableBuying. rewrite H.
  destruct isApproved, isConfirmed; reflexivity.
Qed.

(** X6.  The insufficient-balance flag raised by an input that costs too
    much is not cleared by a following input that is affordable and equals
    the maximum possible purchase: the handler only raises the cap-exceeded
    flag then.  The flag stays up, the error shown is the insufficient
    balance one, and the purchase stays disabled. *)
Theorem insufficient_flag_sticks (cap price balance : BigNumber)
    (input1 input2 : string) (raw1 raw2 : Z) (st : State) :
  parseInt10 input1 = JInt raw1 -> parseInt10 input2 = JInt raw2 ->
  BN.gt (BN.times price (limitNumberByMaxTicketsPerBuy cap (BN.ofZ raw1))) balance = true ->
  BN.gt (BN.times price (limitNumberByMaxTicketsPerBuy cap (BN.ofZ raw2))) balance = false ->
  BN.eq (limitNumberByMaxTicketsPerBuy cap (BN.ofZ raw2)) (maxPossibleTicketPurchase st)
    = true ->
  let st2 := handleInputChange cap price balance input2
               (handleInputChange cap price balance input1 st) in
  userNotEnoughCake st2 = true
  /\ maxTicketPurchaseExceeded st2 = true
  /\ renderedError st2 = Some InsufficientCakeBalance
  /\ forall (isApproved isConfirmed : bool) (tickets : list TicketNumber),
       disableBuying isApproved isConfirmed tickets st2 = true.
Proof.
  intros H1 H2 Hgt1 Hgt2 Heq. cbv zeta.
  set (st1 := handleInputChange cap price balance input1 st).
  assert (F1 : userNotEnoughCake st1 = true).
  { unfold st1, handleInputChange, getCakeValueOfTickets. rewrite H1.
    cbn [BNString.ofNumber]. rewrite Hgt1. reflexivity. }
  assert (M1 : maxPossibleTicketPurchase st1 = maxPossibleTicketPurchase st).
  { apply (handleInputChange_kept cap price balance input1 st). }
  assert (F2 : userNotEnoughCake (handleInputChange cap price balance input2 st1) = true
               /\ maxTicketPurchaseExceeded (handleInputChange cap price balance input2 st1)
                  = true).
  { unfold handleInputChange, getCakeValueOfTickets. rewrite H2.
    cbn [BNString.ofNumber]. rewrite Hgt2, M1, Heq. cbn. split; [exact F1 | reflexivity]. }
  destruct F2 as [F2 E2].
  split; [exact F2|]. split; [exact E2|]. split.
  - unfold renderedError, isWarning, getErrorMessage. rewrite F2. reflexivity.
  - intros a cf tickets. apply disableBuying_flag_up. exact F2.
Qed.

Lemma insufficient_flag_sticks_witness :
  let st := getMaxPossiblePurchase 20 (BN.ofZ 100) (BN.ofZ 5) (BN.ofZ 20) SUCCESS initialState in
  let st2 := handleInputChange (BN.ofZ 100) (BN.ofZ 5) (BN.ofZ 20) "4"
               (handleInputChange (BN.ofZ 100) (BN.ofZ 5) (BN.ofZ 20) "10" st) in
  userNotEnoughCake st2 = true
  /\ maxTicketPurchaseExceeded st2 = true
  /\ renderedError st2 = Some InsufficientCakeBalance
  /\ forall (isApproved isConfirmed : bool) (tickets : list TicketNumber),
       disableBuying isApproved isConfirmed tickets st2 = true.
Proof.
  apply (insufficient_flag_sticks (BN.ofZ 100) (BN.ofZ 5) (BN.ofZ 20) "10" "4" 10 4
           (getMaxPossiblePurchase 20 (BN.ofZ 100) (BN.ofZ 5) (BN.ofZ 20) SUCCESS
              initialState)).
  - reflexivity.
  - reflexivity.
  - vm_compute. reflexivity.
  - vm_compute. reflexivity.
  - vm_compute. reflexivity.
Defined.

Lemma getMaxPossiblePurchase_ticketsToBuy (dp : nat) (cap price balance : BigNumber)
    (fs : FetchStatus) (st : State) :
  ticketsToBuy (getMaxPossiblePurchase dp cap price balance fs st) = ticketsToBuy st.
Proof.
  unfold getMaxPossiblePurchase. destruct (hasFetchedBalance fs && _)%bool; reflexivity.
Qed.

(** X7.  When the validator effect runs and finds a maximum possible
    purchase that is not zero, it lowers the insufficient-balance flag
    without looking at the stored quantity: from then on the purchase is
    enabled exactly when approval is granted, the flow is not confirmed and
    the ticket numbers match a positive quantity, whether or not that
    quantity is affordable. *)
Theorem validator_lowers_flag (dp : nat) (cap price balance : BigNumber)
    (fs : FetchStatus) (st : State) (q : Z) (isApproved isConfirmed : bool)
    (tickets : list TicketNumber) :
  ticketsToBuy st = numeral q ->
  BN.eq (limitNumberByMaxTicketsPerBuy cap (BN.div dp balance price)) (BN.ofZ 0) = false ->
  let st' := getMaxPossiblePurchase dp cap price balance fs st in
  userNotEnoughCake st' = false
  /\ ticketsToBuy st' = numeral q
  /\ (disableBuying isApproved isConfirmed tickets st' = false
      <-> isApproved = true /\ isConfirmed = false
          /\ (0 < q)%Z /\ Z.of_nat (List.length tickets) = q).
Proof.
  intros Hq Hne. cbv zeta.
  assert (F : userNotEnoughCake (getMaxPossiblePurchase dp cap price balance fs st) = false).
  { rewrite getMaxPossiblePurchase_flag, getMaxPossiblePurchase_max, Hne.
    apply Bool.andb_false_r. }
  assert (T : ticketsToBuy (getMaxPossiblePurchase dp cap price balance fs st) = numeral q).
  { rewrite getMaxPossiblePurchase_ticketsToBuy. exact Hq. }
  split; [exact F|]. split; [exact T|].
  rewrite (disableBuying_numeral _ _ _ _ q T), F.
  rewrite !Bool.orb_false_iff, Bool.negb_false_iff, Bool.negb_false_iff.
  rewrite Z.leb_gt, Z.eqb_eq. tauto.
Qed.

(** An instance: ten tickets stored after the flag was raised (they cost 50
    against a balance of 20); the balance becomes 21, the effect runs, and
    the purchase of ten tickets is enabled. *)
Lemma validator_lowers_flag_witness :
  let st := handleInputChange (BN.ofZ 100) (BN.ofZ 5) (BN.ofZ 20) "10" initialState in
  let st' := getMaxPossiblePurchase 20 (BN.ofZ 100) (BN.ofZ 5) (BN.ofZ 21) SUCCESS st in
  userNotEnoughCake st = true
  /\ userNotEnoughCake st' = false
  /\ ticketsToBuy st' = numeral 10
  /\ (disableBuying true false [1; 2; 3; 4; 5; 6; 7; 8; 9; 10]%Z st' = false
      <-> true = true /\ false = false
          /\ (0 < 10)%Z /\ Z.of_nat (List.length [1; 2; 3; 4; 5; 6; 7; 8; 9; 10]%Z) = 10%Z).
Proof.
  cbv zeta. split; [reflexivity|].
  apply (validator_lowers_flag 20 (BN.ofZ 100) (BN.ofZ 5) (BN.ofZ 21) SUCCESS
           (handleInputChange (BN.ofZ 100) (BN.ofZ 5) (BN.ofZ 20) "10" initialState)
           10 true false [1; 2; 3; 4; 5; 6; 7; 8; 9; 10]%Z).
  - reflexivity.
  - vm_compute. reflexivity.
Defined.

(** ** The cost figures at the edges *)

Lemma represents_zero_coeff (d : decimal) : represents (Finite d) 0 -> coeff d = 0%Z.
Proof.
  simpl. unfold toQ, Qeq. simpl. lia.
Qed.

Lemma coeff_zero_represents (d : decimal) : coeff d = 0%Z -> represents (Finite d) 0.
Proof.
  simpl. unfold toQ, Qeq. simpl. lia.
Qed.

Lemma nanOrZero_not_positive (x : BigNumber) :
  nanOrZero x -> BN.gt x (BN.ofZ 0) = false.
Proof.
  intros [-> | H]; [reflexivity|].
  destruct (BN.gt x (BN.ofZ 0)) eqn:E; [|reflexivity].
  apply (represents_gt x (BN.ofZ 0) 0 0 H (represents_ofZ 0)) in E. lra.
Qed.

Lemma nanOrZero_isNaN_or_eq (x : BigNumber) :
  nanOrZero x -> (BN.isNaN x || BN.eq x (BN.ofZ 0))%bool = true.
Proof.
  intros [-> | H]; [reflexivity|].
  apply Bool.orb_true_iff. right.
  apply (represents_eq x (BN.ofZ 0) 0 0 H (represents_ofZ 0)). reflexivity.
Qed.

Lemma times_nanOrZero_r (x n : BigNumber) : nanOrZero n -> nanOrZero (BN.times x n).
Proof.
  intros [-> | H].
  - left. destruct x; reflexivity.
  - destruct n as [| |d]; simpl in H; try contradiction.
    pose proof (represents_zero_coeff d H) as Hc.
    destruct x as [|b|a].
    + left. reflexivity.
    + left. cbn. unfold BN.isZero. rewrite Hc. reflexivity.
    + right. apply coeff_zero_represents. cbn. rewrite Hc. lia.
Qed.

Lemma times_nanOrZero_l (x y : BigNumber) : nanOrZero x -> nanOrZero (BN.times x y).
Proof.
  intros [-> | H].
  - left. reflexivity.
  - destruct x as [| |d]; simpl in H; try contradiction.
    pose proof (represents_zero_coeff d H) as Hc.
    destruct y as [|b|a].
    + left. reflexivity.
    + left. cbn. unfold BN.isZero. rewrite Hc. reflexivity.
    + right. apply coeff_zero_represents. cbn. rewrite Hc. lia.
Qed.

Lemma roundHalfUp_zero (den : Z) : (0 < den)%Z -> roundHalfUp 0 den = 0%Z.
Proof.
  intro H. unfold roundHalfUp. change (0 <=? 0)%Z with true. cbv iota.
  apply Z.div_small. lia.
Qed.

Lemma div_nanOrZero_l (dp : nat) (x y : BigNumber) :
  nanOrZero x -> nanOrZero (BN.div dp x y).
Proof.
  intros [-> | H].
  - left. reflexivity.
  - destruct x as [| |d]; simpl in H; try contradiction.
    pose proof (represents_zero_coeff d H) as Hc.
    destruct y as [|b|a].
    + left. reflexivity.
    + right. apply (represents_ofZ 0).
    + unfold BN.div, BN.isZero. rewrite Hc. cbn [Z.eqb].
      destruct (coeff a =? 0)%Z eqn:Ea; [left; reflexivity|].
      apply Z.eqb_neq in Ea. right.
      rewrite Z.mul_0_l. pose proof (pow10_pos (scale d)) as Hp.
      destruct (coeff a * pow10 (scale d) <? 0)%Z eqn:Es.
      * apply Z.ltb_lt in Es. apply coeff_zero_represents. cbn [coeff Z.opp].
        apply roundHalfUp_zero. lia.
      * apply Z.ltb_ge in Es. apply coeff_zero_represents. cbn [coeff].
        apply roundHalfUp_zero. nia.
Qed.

Lemma minus_nanOrZero (x y : BigNumber) :
  nanOrZero x -> nanOrZero y -> nanOrZero (BN.minus x y).
Proof.
  intros [-> | Hx] [-> | Hy].
  - left. reflexivity.
  - left. reflexivity.
  - left. destruct x; reflexivity.
  - right. apply (represents_ext _ (0 - 0)); [reflexivity|].
    apply represents_minus; assumption.
Qed.

Lemma displayed_not_positive (fmt : BigNumber -> option Z -> option Z -> string)
    (x : BigNumber) (d a : option Z) :
  BN.gt x (BN.ofZ 0) = false -> displayed fmt x d a = "0"%string.
Proof. intro H. unfold displayed. rewrite H. reflexivity. Qed.

(** X8.  With a stored quantity of zero, the three cost figures are ["0"]
    for every price and every divisor, finite or not: a zero, NaN or
    infinite divisor or price never reaches the formatter. *)
Theorem zero_quantity_figures (dp : nat)
    (fmt : BigNumber -> option Z -> option Z -> string)
    (price divisor : BigNumber) (st : State) :
  represents (BNString.ofString (ticketsToBuy st)) 0 ->
  let st' := updateCostFigures dp fmt price divisor st in
  ticketCostBeforeDiscount st' = "0"%string
  /\ totalCost st' = "0"%string
  /\ discountValue st' = "0"%string.
Proof.
  intro H. cbv zeta.
  destruct (updateCostFigures_fields dp fmt price divisor st) as [E1 [E2 E3]].
  rewrite E1, E2, E3.
  set (n := BNString.ofString (ticketsToBuy st)) in *.
  assert (Hn : nanOrZero n) by (right; exact H).
  assert (Hb : nanOrZero (costBeforeDiscount price n))
    by (apply times_nanOrZero_r; exact Hn).
  assert (Ha : nanOrZero (getCostAfterDiscount dp price divisor n)).
  { unfold getCostAfterDiscount. apply div_nanOrZero_l, times_nanOrZero_l.
    exact Hb. }
  assert (Hd : nanOrZero (discountBeingApplied dp price divisor n))
    by (apply minus_nanOrZero; assumption).
  repeat split; apply displayed_not_positive, nanOrZero_not_positive; assumption.
Qed.

Lemma zero_quantity_figures_witness :
  let st' := updateCostFigures 20 (fun x _ _ => BNString.toString x) NaN (BN.ofZ 0)
               initialState in
  ticketCostBeforeDiscount st' = "0"%string
  /\ totalCost st' = "0"%string
  /\ discountValue st' = "0"%string.
Proof.
  apply (zero_quantity_figures 20 (fun x _ _ => BNString.toString x) NaN (BN.ofZ 0)
           initialState).
  reflexivity.
Defined.

Lemma coeff_sign (d : decimal) (q : Q) :
  represents (Finite d) q ->
  (BN.isZero d = true <-> q == 0) /\ (BN.isNeg d = true <-> q < 0).
Proof.
  simpl. intro H. unfold BN.isZero, BN.isNeg. rewrite Z.eqb_eq, Z.ltb_lt, <- H.
  unfold toQ, Qeq, Qlt. simpl. split; split; lia.
Qed.

Lemma integer_product_nonpositive (k : Z) :
  (0 <= k)%Z -> inject_Z k * (0 + 1 - inject_Z k) <= 0.
Proof.
  intro Hk.
  assert (E : inject_Z k * (0 + 1 - inject_Z k) == inject_Z (k * (1 - k))).
  { rewrite inject_Z_mult. unfold Z.sub. rewrite inject_Z_plus, inject_Z_opp.
    change (inject_Z 1) with 1. ring. }
  rewrite E. change 0 with (inject_Z 0). rewrite <- Zle_Qle. nia.
Qed.

(** X9.  With a divisor equal to zero, a price [>= 0] and an integer ticket
    count [k >= 0], the cost after discount is NaN or minus infinity and the
    total is displayed as ["0"]; but from two tickets on at a price [> 0]
    the discount is plus infinity, and that is handed to the formatter. *)
Theorem zero_divisor_figures (dp : nat)
    (fmt : BigNumber -> option Z -> option Z -> string)
    (price divisor n : BigNumber) (qp : Q) (k : Z) :
  represents price qp -> represents divisor 0 -> represents n (inject_Z k) ->
  0 <= qp -> (0 <= k)%Z ->
  (getCostAfterDiscount dp price divisor n = NaN
   \/ getCostAfterDiscount dp price divisor n = Infinity true)
  /\ displayed fmt (getCostAfterDiscount dp price divisor n) None None = "0"%string
  /\ (0 < qp -> (2 <= k)%Z ->
      discountBeingApplied dp price divisor n = Infinity false
      /\ displayed fmt (discountBeingApplied dp price divisor n) (Some 18%Z) (Some 5%Z)
         = fmt (Infinity false) (Some 18%Z) (Some 5%Z)).
Proof.
  intros Hp Hd Hn Hp0 Hk.
  set (num := BN.times (BN.times price n)
                (BN.minus (BN.plus divisor (BN.ofZ 1)) n)).
  assert (Hnum : represents num (qp * inject_Z k * (0 + 1 - inject_Z k))).
  { unfold num. apply represents_times; [apply represents_times; assumption|].
    apply represents_minus; [|assumption].
    apply represents_plus; [assumption | apply (represents_ofZ 1)]. }
  assert (Hle : qp * inject_Z k * (0 + 1 - inject_Z k) <= 0).
  { pose proof (integer_product_nonpositive k Hk) as H.
    setoid_replace (qp * inject_Z k * (0 + 1 - inject_Z k))
      with (qp * (inject_Z k * (0 + 1 - inject_Z k))) by ring.
    set (w := inject_Z k * (0 + 1 - inject_Z k)) in *.
    assert (0 <= qp * (- w)) by (apply Qmult_le_0_compat; lra).
    lra. }
  assert (Ecost : getCostAfterDiscount dp price divisor n = BN.div dp num divisor)
    by reflexivity.
  destruct divisor as [| |dd]; simpl in Hd; try contradiction.
  pose proof (represents_zero_coeff dd Hd) as Hdd.
  destruct num as [| |a] eqn:En; simpl in Hnum; try contradiction.
  destruct (coeff_sign a _ Hnum) as [Hz Hneg].
  assert (Ediv : BN.div dp (Finite a) (Finite dd)
                 = if BN.isZero a then NaN else Infinity (BN.isNeg a)).
  { unfold BN.div. unfold BN.isZero at 1. rewrite Hdd. reflexivity. }
  set (q := qp * inject_Z k * (0 + 1 - inject_Z k)) in *.
  assert (Key : BN.isZero a = true \/ (BN.isZero a = false /\ BN.isNeg a = true)).
  { destruct (Qeq_dec q 0) as [E | E].
    - left. apply Hz. exact E.
    - right. split.
      + destruct (BN.isZero a) eqn:Ez; [|reflexivity]. exfalso. apply E, Hz. reflexivity.
      + apply Hneg. lra. }
  rewrite Ecost, Ediv.
  split; [|split].
  - destruct Key as [-> | [-> ->]]; [left | right]; reflexivity.
  - apply displayed_not_positive.
    destruct Key as [-> | [-> ->]]; reflexivity.
  - intros Hp1 Hk2.
    assert (Hlt : q < 0).
    { assert (H2 : 2 <= inject_Z k).
      { change 2 with (inject_Z 2). rewrite <- Zle_Qle. exact Hk2. }
      assert (0 < qp * inject_Z k) by (apply Qmult_lt_0_compat; lra).
      unfold q. set (b := qp * inject_Z k) in *.
      assert (0 < b * (inject_Z k - 1)) by (apply Qmult_lt_0_compat; lra).
      lra. }
    assert (Ez : BN.isZero a = false).
    { destruct Key as [Ez | [Ez _]]; [|exact Ez]. apply Hz in Ez. lra. }
    assert (Eneg : BN.isNeg a = true) by (apply Hneg; exact Hlt).
    assert (Edisc : discountBeingApplied dp price (Finite dd) n = Infinity false).
    { unfold discountBeingApplied. rewrite Ecost, Ediv, Ez, Eneg.
      assert (Hb : represents (costBeforeDiscount price n) (qp * inject_Z k))
        by (apply represents_times; assumption).
      destruct (costBeforeDiscount price n); simpl in Hb; try contradiction.
      reflexivity. }
    split; [exact Edisc|].
    unfold displayed. rewrite Edisc. reflexivity.
Qed.

Lemma zero_divisor_figures_witness :
  let fmt := fun (x : BigNumber) (_ _ : option Z) => BNString.toString x in
  (getCostAfterDiscount 20 (BN.ofZ 5) (BN.ofZ 0) (BN.ofZ 3) = NaN
   \/ getCostAfterDiscount 20 (BN.ofZ 5) (BN.ofZ 0) (BN.ofZ 3) = Infinity true)
  /\ displayed fmt (getCostAfterDiscount 20 (BN.ofZ 5) (BN.ofZ 0) (BN.ofZ 3)) None None
     = "0"%string
  /\ discountBeingApplied 20 (BN.ofZ 5) (BN.ofZ 0) (BN.ofZ 3) = Infinity false
  /\ displayed fmt (discountBeingApplied 20 (BN.ofZ 5) (BN.ofZ 0) (BN.ofZ 3))
       (Some 18%Z) (Some 5%Z) = "Infinity"%string.
Proof.
  cbv zeta.
  destruct (zero_divisor_figures 20 (fun x _ _ => BNString.toString x)
              (BN.ofZ 5) (BN.ofZ 0) (BN.ofZ 3) 5 3) as [H1 [H2 H3]];
    try reflexivity; try discriminate.
  split; [exact H1|]. split; [exact H2|].
  apply H3; [reflexivity | lia].
Defined.

(** X10.  When the formula's value has at most [DECIMAL_PLACES] decimals,
    the discount is [price * n * (n - 1) / divisor]: as a share of the cost
    before discount it is [(n - 1) / divisor], linear in the number of
    tickets, which is what the tooltip says. *)
Theorem discount_linear (dp : nat) (price divisor n : BigNumber) (qp qd qn : Q) :
  represents price qp -> represents divisor qd -> represents n qn ->
  ~ qd == 0 -> ~ qp * qn == 0 ->
  onGrid dp (exactCostAfterDiscount qp qd qn) ->
  exists qdisc,
    represents (discountBeingApplied dp price divisor n) qdisc
    /\ qdisc == qp * qn * (qn - 1) / qd
    /\ qdisc / (qp * qn) * 100 == (qn - 1) / qd * 100.
Proof.
  intros Hp Hd Hn Hnz Hb0 Hg.
  destruct (getCostAfterDiscount_represents dp price divisor n qp qd qn Hp Hd Hn Hnz)
    as [qa [Ha Hr]].
  pose proof (roundsTo_exact dp _ qa Hr Hg) as Ea.
  exists (qp * qn - qa). split; [|split].
  - unfold discountBeingApplied. apply represents_minus; [|exact Ha].
    apply represents_times; assumption.
  - rewrite Ea. unfold exactCostAfterDiscount. field. exact Hnz.
  - rewrite Ea. unfold exactCostAfterDiscount. field.
    repeat split; try assumption; intro E; apply Hb0; rewrite E; ring.
Qed.

(** An instance at the divisor 2000 and a price of 0.5 CAKE in wei, and the
    three rows of the tooltip: 2 tickets 0.05 percent, 50 tickets 2.45
    percent, 100 tickets 4.95 percent. *)
Lemma discount_linear_witness :
  (exists qdisc,
     represents
       (discountBeingApplied 20 (BN.ofZ 500000000000000000) (BN.ofZ 2000) (BN.ofZ 100))
       qdisc
     /\ qdisc == 500000000000000000 * 100 * (100 - 1) / 2000
     /\ qdisc / (500000000000000000 * 100) * 100 == (100 - 1) / 2000 * 100)
  /\ (2 - 1) / 2000 * 100 == 5 # 100
  /\ (50 - 1) / 2000 * 100 == 245 # 100
  /\ (100 - 1) / 2000 * 100 == 495 # 100.
Proof.
  split; [|repeat split].
  apply (discount_linear 20 (BN.ofZ 500000000000000000) (BN.ofZ 2000) (BN.ofZ 100)
           500000000000000000 2000 100); try reflexivity; try discriminate.
  exists (47525000000000000000 * pow10 20)%Z. vm_compute. reflexivity.
Defined.

(** X11.  From [divisor + 1] tickets on, the formula's value is zero or
    negative, and the total is displayed as ["0"] (price [>= 0], divisor
    [> 0]). *)
Theorem total_zero_beyond_divisor (dp : nat)
    (fmt : BigNumber -> option Z -> option Z -> string)
    (price divisor n : BigNumber) (qp qd qn : Q) :
  represents price qp -> represents divisor qd -> represents n qn ->
  0 <= qp -> 0 < qd -> qd + 1 <= qn ->
  BN.gt (getCostAfterDiscount dp price divisor n) (BN.ofZ 0) = false
  /\ displayed fmt (getCostAfterDiscount dp price divisor n) None None = "0"%string.
Proof.
  intros Hp Hd Hn Hp0 Hd0 Hq.
  destruct (getCostAfterDiscount_represents dp price divisor n qp qd qn Hp Hd Hn)
    as [qa [Ha Hr]]; [lra|].
  assert (Hex : exactCostAfterDiscount qp qd qn <= 0).
  { unfold exactCostAfterDiscount. apply Qle_shift_div_r; [assumption|].
    assert (0 <= qp * qn) by (apply Qmult_le_0_compat; lra).
    set (b := qp * qn) in *.
    assert (0 <= b * (qn - qd - 1)) by (apply Qmult_le_0_compat; lra).
    lra. }
  assert (Hqa : qa <= 0).
  { apply (roundsTo_le_grid dp _ qa 0 Hr); [|exact Hex].
    apply (onGrid_inject_Z dp 0). }
  assert (G : BN.gt (getCostAfterDiscount dp price divisor n) (BN.ofZ 0) = false).
  { destruct (BN.gt _ (BN.ofZ 0)) eqn:E; [|reflexivity].
    apply (represents_gt _ _ qa 0 Ha (represents_ofZ 0)) in E. lra. }
  split; [exact G | apply displayed_not_positive; exact G].
Qed.

Lemma total_zero_beyond_divisor_witness :
  let fmt := fun (x : BigNumber) (_ _ : option Z) => BNString.toString x in
  BN.gt (getCostAfterDiscount 20 (BN.ofZ 5) (BN.ofZ 2000) (BN.ofZ 2001)) (BN.ofZ 0) = false
  /\ displayed fmt (getCostAfterDiscount 20 (BN.ofZ 5) (BN.ofZ 2000) (BN.ofZ 2001))
       None None = "0"%string.
Proof.
  apply (total_zero_beyond_divisor 20 (fun x _ _ => BNString.toString x)
           (BN.ofZ 5) (BN.ofZ 2000) (BN.ofZ 2001) 5 2000 2001);
    try reflexivity; discriminate.
Defined.

(** ** The shortcut buttons *)







(** ** The cap as an invariant *)








(** ** The error message *)






(** ** The discount percentage *)

(** X16.  When the discount figure is ["0"], the percentage shown is the
    number 0, whatever the cost figure holds (zero, NaN, anything): no
    division by zero shows through. *)
Theorem percentage_zero_without_discount (dp : nat) (st : State) :
  discountValue st = "0"%string ->
  percentageDiscount dp st = PercentZero
  /\ bulkDiscountPercentage dp st = PercentZero.
Proof.
  intro H.
  assert (E : percentageDiscount dp st = PercentZero).
  { unfold percentageDiscount. rewrite H.
    change (BNString.ofString "0") with (BN.ofZ 0).
    rewrite nanOrZero_isNaN_or_eq; [reflexivity|].
    apply times_nanOrZero_l, div_nanOrZero_l. right. apply (represents_ofZ 0). }
  split; [exact E|].
  unfold bulkDiscountPercentage. rewrite E. destruct (_ && _)%bool; reflexivity.
Qed.

Lemma percentage_zero_without_discount_witness :
  let st := updateCostFigures 20 (fun x _ _ => BNString.toString x) (BN.ofZ 5) (BN.ofZ 2000)
              (setTicketsToBuy "1" initialState) in
  percentageDiscount 20 st = PercentZero
  /\ bulkDiscountPercentage 20 st = PercentZero.
Proof.
  apply (percentage_zero_without_discount 20
           (updateCostFigures 20 (fun x _ _ => BNString.toString x) (BN.ofZ 5) (BN.ofZ 2000)
              (setTicketsToBuy "1" initialState))).
  vm_compute. reflexivity.
Defined.

(** ** What a confirmation submits *)



(** ** A shortcut click and the gate *)


(** ** Before the round data has arrived *)

Lemma div_NaN_r (dp : nat) (x : BigNumber) : BN.div dp x NaN = NaN.
Proof. destruct x; reflexivity. Qed.

Lemma times_NaN_l (y : BigNumber) : BN.times NaN y = NaN.
Proof. reflexivity. Qed.

(** X19.  While the ticket price is NaN: the maximum possible purchase is
    NaN and the insufficient-balance flag is down, fetched balance or not;
    every shortcut button is disabled; and the three cost figures are ["0"]
    for every stored quantity and divisor. *)
Theorem price_not_loaded (dp : nat)
    (fmt : BigNumber -> option Z -> option Z -> string)
    (cap divisor balance : BigNumber) (fs : FetchStatus) (st : State) (pct : Z) :
  let st1 := getMaxPossiblePurchase dp cap NaN balance fs st in
  let st2 := updateCostFigures dp fmt NaN divisor st in
  maxPossibleTicketPurchase st1 = NaN
  /\ userNotEnoughCake st1 = false
  /\ buttonDisabled fs (getNumTicketsByPercentage dp st1 pct) = true
  /\ ticketCostBeforeDiscount st2 = "0"%string
  /\ totalCost st2 = "0"%string
  /\ discountValue st2 = "0"%string.
Proof.
  cbv zeta.
  assert (M : maxPossibleTicketPurchase (getMaxPossiblePurchase dp cap NaN balance fs st)
              = NaN).
  { rewrite getMaxPossiblePurchase_max, div_NaN_r. reflexivity. }
  split; [exact M|]. split.
  { rewrite getMaxPossiblePurchase_flag, M. apply Bool.andb_false_r. }
  split.
  { unfold buttonDisabled, getNumTicketsByPercentage. rewrite M. cbn.
    apply Bool.orb_true_r. }
  destruct (updateCostFigures_fields dp fmt NaN divisor st) as [E1 [E2 E3]].
  rewrite E1, E2, E3.
  repeat split; apply displayed_not_positive, nanOrZero_not_positive; left; reflexivity.
Qed.

(** ** Typing, then pricing *)

(** X20.  The figures computed after an input are those of the clamped
    quantity [min raw c], read back from the stored numeral, not those of
    what was typed (integer cap [c >= 0]). *)
Theorem figures_follow_stored_quantity (dp : nat)
    (fmt : BigNumber -> option Z -> option Z -> string)
    (c : Z) (price divisor balance : BigNumber) (input : string) (st : State) (raw : Z) :
  (0 <= c)%Z -> parseInt10 input = JInt raw ->
  let n := BN.ofZ (Z.min raw c) in
  let st' := updateCostFigures dp fmt price divisor
               (handleInputChange (BN.ofZ c) price balance input st) in
  ticketCostBeforeDiscount st' = displayed fmt (costBeforeDiscount price n) None None
  /\ totalCost st' = displayed fmt (getCostAfterDiscount dp price divisor n) None None
  /\ discountValue st'
     = displayed fmt (discountBeingApplied dp price divisor n) (Some 18%Z) (Some 5%Z).
Proof.
  intros Hc Hparse. cbv zeta.
  destruct (updateCostFigures_fields dp fmt price divisor
              (handleInputChange (BN.ofZ c) price balance input st)) as [E1 [E2 E3]].
  rewrite E1, E2, E3, handleInputChange_stored, ofString_numeral, Hparse.
  assert (Es : storedQuantity c (JInt raw) = Z.min raw c).
  { cbn [storedQuantity]. destruct (Z.eqb_spec raw 0) as [-> | _]; [|reflexivity].
    rewrite Z.min_l by exact Hc. reflexivity. }
  rewrite Es. repeat split.
Qed.

Lemma figures_follow_stored_quantity_witness :
  let fmt := fun (x : BigNumber) (_ _ : option Z) => BNString.toString x in
  let st' := updateCostFigures 20 fmt (BN.ofZ 5) (BN.ofZ 2000)
               (handleInputChange (BN.ofZ 100) (BN.ofZ 5) (BN.ofZ 2000) "150"
                  initialState) in
  ticketCostBeforeDiscount st'
  = displayed fmt (costBeforeDiscount (BN.ofZ 5) (BN.ofZ (Z.min 150 100))) None None
  /\ totalCost st'
     = displayed fmt (getCostAfterDiscount 20 (BN.ofZ 5) (BN.ofZ 2000)
                        (BN.ofZ (Z.min 150 100))) None None
  /\ discountValue st'
     = displayed fmt (discountBeingApplied 20 (BN.ofZ 5) (BN.ofZ 2000)
                        (BN.ofZ (Z.min 150 100))) (Some 18%Z) (Some 5%Z).
Proof.
  apply (figures_follow_stored_quantity 20 (fun x _ _ => BNString.toString x) 100
           (BN.ofZ 5) (BN.ofZ 2000) (BN.ofZ 2000) "150" initialState 150).
  - lia.
  - reflexivity.
Defined.
